(** * GenieSugar backend: glucose timeline, Dexcom sync, alerts, summaries

    A shallow embedding of [src/app.py]: the handlers [add_glucose_reading],
    [sync_dexcom_data] / [sync_dexcom], [get_doctor_patients],
    [get_glucose_readings], [ai_chat] and [food_logs], with the helpers they
    call ([require_json], [api_error], [send_email], [send_sms],
    [get_ai_response]).

    Conventions of the embedding.
    - The database is a record of tables; a table is the list of its rows in
      the order an unordered [SELECT] returns them (here: insertion order).
      The engine is SQLite, the default of [DATABASE_URL]: a column gives
      back what SQLite stores for the bound parameter, so text columns turn
      numbers into text, integer columns turn numeric text into numbers,
      NaN is stored as NULL and minus zero comes back as zero.
    - A handler is a computation in the state monad [M] over [World]: the
      database together with the log of calls made to the notification
      dispatcher.
    - Timestamps are integers (microseconds since the epoch, UTC).
    - A Python [float] is a binary64 number: a primitive float of Rocq, with
      the same rounding to nearest even, infinities and NaN.  A Python [int]
      is an integer of [Z].
    - Builtins and library functions whose code is not in the repository
      are the fields of [Runtime]: [float] on strings, [sum], dateutil's
      [isoparse] and the two conversions between text and numbers inside
      SQLite.
    - Strings are byte strings (the UTF-8 encoding of the Python string).
    - Python's [None] is [JNull]; exceptions are values of [exn]. *)

From Stdlib Require Import ZArith QArith List String Bool Lia.
From Stdlib Require Import Floats DecimalString.
From Stdlib Require Import Sorted Permutation.
Import ListNotations.
Local Open Scope string_scope.
Local Open Scope list_scope.
Local Open Scope Z_scope.

Set Implicit Arguments.

(** A decimal literal denotes the nearest binary64 number, as in Python. *)
Set Warnings "-inexact-float".

(** ** JSON payloads *)

(** A decoded JSON value, as [json.loads] gives it: a number without
    fraction and exponent is an [int], any other number is a [float], and
    the literals [NaN], [Infinity] and [-Infinity] are accepted. *)
#[local] Unset Elimination Schemes.
Inductive json : Type :=
| JNull
| JBool (b : bool)
| JInt (z : Z)
| JFloat (f : float)
| JStr (s : string)
| JArr (l : list json)
| JObj (l : list (string * json)).
#[local] Set Elimination Schemes.

Definition dict := list (string * json).

(** [key in data] *)
Fixpoint dict_mem (data : dict) (key : string) : bool :=
  match data with
  | [] => false
  | (k, _) :: rest => if String.eqb k key then true else dict_mem rest key
  end.

(** [data.get(key)]: the value, [None] when the key is absent. *)
Fixpoint dict_get (data : dict) (key : string) : json :=
  match data with
  | [] => JNull
  | (k, v) :: rest => if String.eqb k key then v else dict_get rest key
  end.

(** [v in (None, str(), [])]: null, the empty string or the empty list. *)
Definition in_empty_values (v : json) : bool :=
  match v with
  | JNull => true
  | JStr EmptyString => true
  | JArr [] => true
  | _ => false
  end.

(** Truth value of an optional string ([if not s], [if s]). *)
Definition truthy (s : option string) : bool :=
  match s with
  | None => false
  | Some EmptyString => false
  | Some _ => true
  end.

(** ** Exceptions and HTTP responses *)

Inductive exn : Type :=
| ValueError
| TypeError
| OverflowError
| AttributeError
| IntegrityError                  (* a constraint of the table fails *)
| ProgrammingError                (* the driver has no binding for the type *)
| StatementError (orig : exn)     (* raised while a parameter is processed *)
| RequestException
| JSONDecodeError.

Inductive error_text : Type :=
| MissingFields (missing : list string)
| ExnText (e : exn)               (* str(e) *)
| DexcomNotConnected
| MissingDexcomToken
| DexcomApiError (status_code : Z).

(** Sequencing of steps that may raise. *)
Definition try_bind {A B : Type} (c : exn + A) (k : A -> exn + B) : exn + B :=
  match c with
  | inl e => inl e
  | inr a => k a
  end.

Notation "x <-? c ;; k" := (try_bind c (fun x => k))
  (at level 61, c at next level, right associativity).

(** ** Binary64 numbers *)

(** The binary64 number nearest to an integer, ties to even; infinite when
    the integer is out of range. *)
Definition float_of_Z (z : Z) : float :=
  SF2Prim (binary_normalize prec emax z 0 false).

(** [float(n)] on an [int]. *)
Definition int_to_float (z : Z) : exn + float :=
  let f := float_of_Z z in
  if is_infinity f then inl OverflowError else inr f.

(** The exact value of a finite float. *)
Definition Q_of_float (x : float) : Q :=
  match Prim2SF x with
  | S754_finite s m e =>
      let n := if s then Zneg m else Zpos m in
      if 0 <=? e then inject_Z (n * 2 ^ e)
      else Qmake n (2 ^ Z.to_pos (- e))%positive
  | _ => 0%Q
  end.

(** The integer a float is equal to, when there is one. *)
Definition integral_value (x : float) : option Z :=
  match Prim2SF x with
  | S754_zero _ => Some 0
  | S754_finite s m e =>
      let n := if s then Zneg m else Zpos m in
      if 0 <=? e then Some (n * 2 ^ e)
      else if n mod 2 ^ (- e) =? 0 then Some (n / 2 ^ (- e)) else None
  | _ => None
  end.

(** Round half to even, to an integer. *)
Definition round_half_even (x : Q) : Z :=
  let n := Qnum x in
  let d := Zpos (Qden x) in
  let q := n / d in
  match (2 * (n mod d) ?= d) with
  | Lt => q
  | Gt => q + 1
  | Eq => if Z.even q then q else q + 1
  end.

(** [round(x, 1)] on a float: the exact value of [x] is rounded to a
    multiple of one tenth, ties to even, and the result is the float
    nearest to that decimal, with the sign of [x] when it is zero.  From
    2^49 on every float is its own rounding; NaN and the infinities are
    returned as they are. *)
Definition py_round1 (x : float) : float :=
  if is_nan x || is_infinity x then x
  else if (float_of_Z (2 ^ 49) <=? abs x)%float then x
  else
    let n := round_half_even (Q_of_float x * 10) in
    if n =? 0 then (if get_sign x then neg_zero else zero)
    else (float_of_Z n / 10)%float.

(** Truth value of an optional number: [None] and zero are false. *)
Definition truthy_num (x : option float) : bool :=
  match x with
  | None => false
  | Some f => negb (f =? 0)%float
  end.

(** ** The runtime outside the repository *)

(** [float] on a string, dateutil's [isoparse] followed by the conversion
    to UTC, the builtin [sum] on a list of floats, and what SQLite makes of
    a number stored in a text column and of a text stored in an integer
    column. *)

Record Runtime : Type := mkRuntime {
  float_of_str : string -> option float;  (* float(s); None: ValueError *)
  isoparse : string -> option Z;          (* dtparser.isoparse(s) in UTC; None: it raises *)
  py_sum : list float -> float;           (* sum(values) *)
  real_text : float -> string;            (* SQLite: a number other than NaN as text *)
  numeric_text : string -> option json    (* SQLite: a text as number; None: it stays text *)
}.

(** [float(v)] *)
Definition py_float (rt : Runtime) (v : json) : exn + float :=
  match v with
  | JFloat f => inr f
  | JInt z => int_to_float z
  | JBool b => inr (if b then 1%float else 0%float)
  | JStr s => match float_of_str rt s with
              | Some f => inr f
              | None => inl ValueError
              end
  | JNull | JArr _ | JObj _ => inl TypeError
  end.

(** ** What SQLite stores *)

Definition INT64_MIN : Z := - 2 ^ 63.
Definition INT64_MAX : Z := 2 ^ 63 - 1.

(** The decimal numeral of an integer. *)
Definition int_text (z : Z) : string := NilZero.string_of_int (Z.to_int z).

(** A float in a [Float] column as a later read gives it back: NaN is
    bound as NULL, and minus zero is stored as the integer zero. *)
Definition sqlite_real (f : float) : option float :=
  if is_nan f then None
  else if (f =? 0)%float then Some 0%float
  else Some f.

(** A parameter of a [Float] column: [None] stays NULL, anything else goes
    through [float] before it is bound. *)
Definition bind_float (rt : Runtime) (v : json) : exn + option float :=
  match v with
  | JNull => inr None
  | _ => match py_float rt v with
         | inr f => inr (sqlite_real f)
         | inl e => inl (StatementError e)
         end
  end.

(** A parameter of a [String] or [Text] column, as a later read gives it
    back: numbers and booleans become text.  The driver binds integers of
    64 bits and refuses lists and objects. *)
Definition text_affinity (rt : Runtime) (v : json) : exn + json :=
  match v with
  | JNull => inr JNull
  | JStr s => inr (JStr s)
  | JBool b => inr (JStr (if b then "1" else "0"))
  | JInt z =>
      if (INT64_MIN <=? z) && (z <=? INT64_MAX) then inr (JStr (int_text z))
      else inl OverflowError
  | JFloat f => if is_nan f then inr JNull else inr (JStr (real_text rt f))
  | JArr _ | JObj _ => inl ProgrammingError
  end.

(** A parameter of an [Integer] column, as a later read gives it back: a
    float equal to an integer strictly between -2^63 and 2^63 becomes that
    integer, a text that reads as a number becomes the number. *)
Definition integer_affinity (rt : Runtime) (v : json) : exn + json :=
  match v with
  | JNull => inr JNull
  | JBool b => inr (JInt (if b then 1 else 0))
  | JInt z =>
      if (INT64_MIN <=? z) && (z <=? INT64_MAX) then inr (JInt z)
      else inl OverflowError
  | JFloat f =>
      if is_nan f then inr JNull
      else match integral_value f with
           | Some z => if (INT64_MIN <? z) && (z <? INT64_MAX) then inr (JInt z)
                       else inr (JFloat f)
           | None => inr (JFloat f)
           end
  | JStr s => match numeric_text rt s with
              | Some n => inr n
              | None => inr (JStr s)
              end
  | JArr _ | JObj _ => inl ProgrammingError
  end.

(** ** Tables *)

Module User.
Record t : Type := mk {
  user_id : Z;
  full_name : string;
  email : string;
  phone : option string;
  role : string;
  dexcom_id : option string
}.
End User.

Module GlucoseReading.
Record t : Type := mk {
  reading_id : Z;
  user_id : Z;
  reading_value : float;
  timestamp : Z;
  context : json;
  notes : json;
  is_synced : bool
}.
End GlucoseReading.

Record Db : Type := mkDb {
  users : list User.t;
  glucose_readings : list GlucoseReading.t
}.

(** ** Notification dispatcher calls *)

Inductive alert : Type := LowAlert | HighAlert | NoAlert.

(** The two alert texts, each embedding the numeric value. *)
Inductive alert_msg : Type :=
| LowGlucoseMsg (val : float)
| HighGlucoseMsg (val : float).

Inductive notification : Type :=
| Email (to_email : string) (subject : string) (html_content : alert_msg)
| Sms (to_phone : string) (message : alert_msg).

Record World : Type := mkWorld {
  db : Db;
  outbox : list notification      (* calls of send_email / send_sms, oldest first *)
}.

(** ** Environment: configuration and external providers *)

Inductive provider_outcome : Type :=
| Raises                          (* exception, timeout, import failure *)
| Returns (status_code : Z).

Record egv : Type := mkEgv {
  systemTime : option string;     (* reading.get("systemTime") *)
  value : json                    (* reading.get("value") *)
}.

Inductive http_result : Type :=
| RequestRaises
| HttpResponse (status_code : Z) (body : option (option (list egv))).
  (* body: None when response.json() raises; Some None when "egvs" is absent *)

Record Env : Type := mkEnv {
  SENDGRID_API_KEY : option string;
  sendgrid_send : notification -> provider_outcome;
  TWILIO_CONFIGURED : bool;       (* sid and token and from_num *)
  twilio_create : notification -> provider_outcome;
  DEXCOM_ACCESS_TOKEN : option string;
  requests_get : Z -> Z -> http_result  (* startDate, endDate *)
}.

(** ** The state monad of handlers *)

Definition M (A : Type) : Type := World -> A * World.

Definition ret {A} (a : A) : M A := fun w => (a, w).

Definition bind {A B} (c : M A) (k : A -> M B) : M B :=
  fun w => let (a, w') := c w in k a w'.

Notation "x <- c ;; k" := (bind c (fun x => k))
  (at level 61, c at next level, right associativity).
Notation "c ;;; k" := (bind c (fun _ => k))
  (at level 61, right associativity).

Definition get_db : M Db := fun w => (db w, w).

Definition put_db (d : Db) : M unit := fun w => (tt, mkWorld d (outbox w)).

Definition log_call (n : notification) : M unit :=
  fun w => (tt, mkWorld (db w) (outbox w ++ [n])).

(** ** Helpers of app.py *)

Inductive response : Type :=
| ApiError (message : error_text) (code : Z)
| ReadingCreated (reading_id : Z) (code : Z).

Definition api_error (message : error_text) (code : Z) : response :=
  ApiError message code.

(** [require_json] with its list of required [fields], on the decoded body [data]. *)
Definition require_json (fields : list string) (data : dict) : dict + response :=
  let missing :=
    filter (fun f => negb (dict_mem data f) || in_empty_values (dict_get data f))
           fields in
  match missing with
  | [] => inl data
  | _ => inr (api_error (MissingFields missing) 400)
  end.

Section Dispatcher.
Variable env : Env.

Definition send_email (to_email subject : string) (html_content : alert_msg)
  : M bool :=
  let n := Email to_email subject html_content in
  log_call n ;;;
  match SENDGRID_API_KEY env with
  | None | Some EmptyString => ret false
  | Some _ =>
      match sendgrid_send env n with
      | Returns status_code => ret (status_code =? 202)
      | Raises => ret false
      end
  end.

Definition send_sms (to_phone : string) (message : alert_msg) : M bool :=
  let n := Sms to_phone message in
  log_call n ;;;
  if TWILIO_CONFIGURED env then
    match twilio_create env n with
    | Returns _ => ret true
    | Raises => ret false
    end
  else ret false.
End Dispatcher.

(** ** Queries and inserts *)

(** [User.query.get(user_id)] *)
Definition User_query_get (d : Db) (uid : Z) : option User.t :=
  find (fun u => User.user_id u =? uid) (users d).

(** The next value of an integer primary key: one more than the largest. *)
Definition next_reading_id (rows : list GlucoseReading.t) : Z :=
  1 + fold_right Z.max 0 (map GlucoseReading.reading_id rows).

(** A [GlucoseReading] object added to the session and not yet flushed,
    with the attributes the constructor call gave it. *)
Record new_reading : Type := mkNew {
  new_user_id : Z;
  new_value : json;
  new_timestamp : Z;
  new_context : json;
  new_notes : json;
  new_synced : bool
}.

(** The INSERT of one pending object: the value goes through the [Float]
    processor, the driver binds the parameters in column order, and the
    statement fails when [reading_value], which is [nullable=False], is
    NULL.  The result is the row as a later read gives it back. *)
Definition insert_reading (rt : Runtime) (rows : list GlucoseReading.t)
           (p : new_reading) : exn + GlucoseReading.t :=
  reading_value <-? bind_float rt (new_value p) ;;
  context <-? text_affinity rt (new_context p) ;;
  notes <-? text_affinity rt (new_notes p) ;;
  match reading_value with
  | None => inl IntegrityError
  | Some v =>
      inr (GlucoseReading.mk (next_reading_id rows) (new_user_id p)
                             v (new_timestamp p) context notes (new_synced p))
  end.

(** The session inside the transaction: rows visible to queries, and the
    objects added since the last flush. *)
Definition session : Type := (list GlucoseReading.t * list new_reading)%type.

(** Flushing inserts the pending objects in order. *)
Fixpoint flush (rt : Runtime) (rows : list GlucoseReading.t)
         (pending : list new_reading) : exn + list GlucoseReading.t :=
  match pending with
  | [] => inr rows
  | p :: rest =>
      match insert_reading rt rows p with
      | inl e => inl e
      | inr row => flush rt (rows ++ [row]) rest
      end
  end.

(** ** POST /api/glucose *)

(** The object built at lines 481-487 from the body and the float [x] that
    [float] gave; [is_synced] gets its default. *)
Definition submitted (identity now : Z) (data : dict) (x : float) : new_reading :=
  mkNew identity (JFloat x) now (dict_get data "context") (dict_get data "notes")
        false.

Section AddGlucoseReading.
Variable env : Env.
Variable rt : Runtime.

(** The threshold branch after the commit (lines 491-504); [inl] is an
    exception raised inside it. *)
Definition threshold_alerts (user : option User.t) (val : float) : M (exn + unit) :=
  if (val <? 70)%float then
    match user with
    | None => ret (inl AttributeError)
    | Some u =>
        send_email env (User.email u) "Critical Low Glucose Alert"
                   (LowGlucoseMsg val) ;;;
        match User.phone u with
        | None | Some EmptyString => ret (inr tt)       (* if user.phone: *)
        | Some p => send_sms env p (LowGlucoseMsg val) ;;; ret (inr tt)
        end
    end
  else if (200 <? val)%float then
    match user with
    | None => ret (inl AttributeError)
    | Some u =>
        send_email env (User.email u) "Critical High Glucose Alert"
                   (HighGlucoseMsg val) ;;;
        match User.phone u with
        | None | Some EmptyString => ret (inr tt)       (* if user.phone: *)
        | Some p => send_sms env p (HighGlucoseMsg val) ;;; ret (inr tt)
        end
    end
  else ret (inr tt).

Definition add_glucose_reading (identity : Z) (now : Z) (body : dict)
  : M response :=
  match require_json ["reading_value"] body with
  | inr err => ret err
  | inl data =>
      match py_float rt (dict_get data "reading_value") with
      | inl e =>
          (* db.session.rollback(): nothing was added *)
          ret (api_error (ExnText e) 500)
      | inr x =>
          d <- get_db ;;
          let reading := submitted identity now data x in
          (* db.session.add(reading); db.session.commit() *)
          match insert_reading rt (glucose_readings d) reading with
          | inl e =>
              (* db.session.rollback(): the insert is undone *)
              ret (api_error (ExnText e) 500)
          | inr row =>
              put_db (mkDb (users d) (glucose_readings d ++ [row])) ;;;
              let user := User_query_get d identity in
              (* the attributes of [reading] are read back after the commit *)
              let val := GlucoseReading.reading_value row in
              r <- threshold_alerts user val ;;
              match r with
              | inl e =>
                  (* rollback after the commit undoes nothing *)
                  ret (api_error (ExnText e) 500)
              | inr _ =>
                  ret (ReadingCreated (GlucoseReading.reading_id row) 201)
              end
          end
      end
  end.
End AddGlucoseReading.

(** ** Dexcom sync *)

(** Result of [sync_dexcom_data]: the dictionary with ["success": True] and
    [readings_added], or with ["success": False] and [error]. *)
Inductive sync_result : Type :=
| SyncOk (readings_added : nat)
| SyncErr (error : error_text).

(** [filter_by(user_id=user_id, timestamp=ts)] as a row predicate. *)
Definition same_key (uid ts : Z) (r : GlucoseReading.t) : bool :=
  (GlucoseReading.user_id r =? uid) && (GlucoseReading.timestamp r =? ts).

Definition timedelta_hours (h : Z) : Z := h * 3600 * 1000000.
Definition timedelta_days (d : Z) : Z := d * 86400 * 1000000.

Section SyncDexcom.
Variable env : Env.
Variable rt : Runtime.

(** The loop over [data.get("egvs", [])] (lines 189-209); a query first
    flushes the session (autoflush). *)
Fixpoint sync_loop (user_id : Z) (egvs : list egv) (s : session)
         (readings_added : nat) : exn + (session * nat) :=
  match egvs with
  | [] => inr (s, readings_added)
  | reading :: rest =>
      match systemTime reading with
      | None | Some EmptyString =>
          sync_loop user_id rest s readings_added            (* continue *)
      | Some system_time =>
          match isoparse rt system_time with
          | None => inl ValueError
          | Some ts =>
              match flush rt (fst s) (snd s) with
              | inl e => inl e
              | inr rows =>
                  if existsb (same_key user_id ts) rows then
                    sync_loop user_id rest (rows, []) readings_added
                  else
                    sync_loop user_id rest
                              (rows, [mkNew user_id (value reading) ts
                                            JNull JNull true])
                              (S readings_added)
              end
          end
      end
  end.

Definition sync_dexcom_data (user_id : Z) (now : Z) : M sync_result :=
  d <- get_db ;;
  match User_query_get d user_id with
  | None => ret (SyncErr DexcomNotConnected)
  | Some user =>
      if negb (truthy (User.dexcom_id user)) then
        ret (SyncErr DexcomNotConnected)
      else if negb (truthy (DEXCOM_ACCESS_TOKEN env)) then
        ret (SyncErr MissingDexcomToken)
      else
        let end_dt := now in
        let start_dt := end_dt - timedelta_hours 24 in
        match requests_get env start_dt end_dt with
        | RequestRaises => ret (SyncErr (ExnText RequestException))
        | HttpResponse status_code body =>
            if negb (status_code =? 200) then
              ret (SyncErr (DexcomApiError status_code))
            else
              match body with
              | None => ret (SyncErr (ExnText JSONDecodeError))
              | Some data =>
                  let egvs := match data with Some l => l | None => [] end in
                  match sync_loop user_id egvs (glucose_readings d, []) 0 with
                  | inl e => ret (SyncErr (ExnText e))     (* rollback *)
                  | inr (s, readings_added) =>
                      (* db.session.commit() *)
                      match flush rt (fst s) (snd s) with
                      | inl e => ret (SyncErr (ExnText e)) (* rollback *)
                      | inr rows =>
                          put_db (mkDb (users d) rows) ;;;
                          ret (SyncOk readings_added)
                      end
                  end
              end
        end
  end.

(** The route [/api/glucose/sync-dexcom]: the result with its status. *)
Definition sync_dexcom (identity : Z) (now : Z) : M (sync_result * Z) :=
  result <- sync_dexcom_data identity now ;;
  ret (result, match result with SyncOk _ => 200 | SyncErr _ => 400 end).
End SyncDexcom.

(** ** GET /api/doctor/patients *)

Module Summary.
Record t : Type := mk {
  id : Z;
  name : string;
  email : string;
  phone : option string;
  last_reading : option float;
  avg_glucose : option float;
  readings_count : nat
}.
End Summary.

(** The readings of one user with [timestamp >= since], in storage order. *)
Definition readings_since (d : Db) (uid since : Z) : list GlucoseReading.t :=
  filter (fun r => (GlucoseReading.user_id r =? uid)
                   && (since <=? GlucoseReading.timestamp r))
         (glucose_readings d).

(** The body of the loop over patients (lines 532-552). *)
Definition patient_summary (rt : Runtime) (d : Db) (seven_days_ago : Z)
           (patient : User.t) : Summary.t :=
  let readings := readings_since d (User.user_id patient) seven_days_ago in
  let '(avg_glucose, last_reading) :=
    match readings with
    | [] => (None, None)
    | r0 :: _ =>
        let values := map GlucoseReading.reading_value readings in
        (Some (py_sum rt values / float_of_Z (Z.of_nat (List.length values)))%float,
         Some (GlucoseReading.reading_value (last readings r0)))
    end in
  Summary.mk (User.user_id patient) (User.full_name patient)
             (User.email patient) (User.phone patient)
             (if truthy_num last_reading
              then option_map py_round1 last_reading else None)
             (if truthy_num avg_glucose
              then option_map py_round1 avg_glucose else None)
             (List.length readings).

Definition get_doctor_patients (rt : Runtime) (now : Z)
  : M (list Summary.t * Z) :=
  d <- get_db ;;
  let patients := filter (fun u => String.eqb (User.role u) "patient") (users d) in
  let seven_days_ago := now - timedelta_days 7 in
  ret (map (patient_summary rt d seven_days_ago) patients, 200).

(** ** Specification-side vocabulary *)

(** Classification of a value as section 4.3 of the specification words it:
    below 70 is low, above 200 is high, anything else raises no alert. *)
Definition classify (v : float) : alert :=
  if (v <? 70)%float then LowAlert
  else if (200 <? v)%float then HighAlert
  else NoAlert.

(** The SMS that accompanies an alert: only for a phone number on file. *)
Definition sms_calls (u : User.t) (m : alert_msg) : list notification :=
  match User.phone u with
  | None | Some EmptyString => []
  | Some p => [Sms p m]
  end.

(** The dispatcher calls an alert of class [a] for value [val] consists of. *)
Definition alert_calls (u : User.t) (val : float) (a : alert) : list notification :=
  match a with
  | LowAlert =>
      Email (User.email u) "Critical Low Glucose Alert" (LowGlucoseMsg val)
      :: sms_calls u (LowGlucoseMsg val)
  | HighAlert =>
      Email (User.email u) "Critical High Glucose Alert" (HighGlucoseMsg val)
      :: sms_calls u (HighGlucoseMsg val)
  | NoAlert => []
  end.

(** A field is present when [require_json] does not report it missing. *)
Definition present (data : dict) (key : string) : bool :=
  dict_mem data key && negb (in_empty_values (dict_get data key)).

Definition response_code (r : response) : Z :=
  match r with
  | ApiError _ code => code
  | ReadingCreated _ code => code
  end.


(** The mean of a window as line 541 computes it: the sum of the values
    divided by their number, in binary64. *)
Definition computed_mean (rt : Runtime) (values : list float) : float :=
  (py_sum rt values / float_of_Z (Z.of_nat (List.length values)))%float.

(** The reading with the largest timestamp (the earliest stored among equals). *)
Fixpoint latest (readings : list GlucoseReading.t) : option GlucoseReading.t :=
  match readings with
  | [] => None
  | r :: rest =>
      match latest rest with
      | None => Some r
      | Some m =>
          if GlucoseReading.timestamp m <=? GlucoseReading.timestamp r
          then Some r else Some m
      end
  end.

(** Every sample that carries a time parses, and its key is in [rows]. *)
Definition covered (rt : Runtime) (uid : Z)
           (rows : list GlucoseReading.t) (egvs : list egv) : Prop :=
  forall e c st,
    In e egvs -> systemTime e = Some (String c st) ->
    exists ts, isoparse rt (String c st) = Some ts /\
               existsb (same_key uid ts) rows = true.

(** A stored row is a copy of one of the samples: same time, and the value
    of the sample as the [Float] column stores it. *)
Definition copied_from (rt : Runtime) (egvs : list egv)
           (r : GlucoseReading.t) : Prop :=
  exists e c st,
    In e egvs /\ systemTime e = Some (String c st) /\
    isoparse rt (String c st) = Some (GlucoseReading.timestamp r) /\
    bind_float rt (value e) = inr (Some (GlucoseReading.reading_value r)).

(** ** A concrete scenario *)

Definition digit_of (c : Ascii.ascii) : option Z :=
  let n := Z.of_nat (Ascii.nat_of_ascii c) in
  if (48 <=? n) && (n <=? 57) then Some (n - 48) else None.

Fixpoint digits_value (s : string) (acc : Z) : option Z :=
  match s with
  | EmptyString => Some acc
  | String c rest =>
      match digit_of c with
      | None => None
      | Some k => digits_value rest (10 * acc + k)
      end
  end.

(** [float] restricted to non-empty strings of decimal digits; it rejects
    every string that contains another character. *)
Definition float_of_digits (s : string) : option float :=
  match s with
  | EmptyString => None
  | _ => option_map float_of_Z (digits_value s 0)
  end.

(** Midnight and one o'clock of 2024-01-01, UTC, in microseconds. *)
Definition t_midnight : Z := 1704067200 * 1000000.
Definition t_one : Z := t_midnight + timedelta_hours 1.

(** [isoparse] on the one timestamp the scenario's provider reports. *)
Definition isoparse_midnight (s : string) : option Z :=
  if String.eqb s "2024-01-01T00:00:00Z" then Some t_midnight else None.

(** [sum] as CPython computes it up to version 3.11: the values are added
    from left to right, starting from zero. *)
Definition sum_left (values : list float) : float :=
  fold_left PrimFloat.add values 0%float.

(** SQLite's text of a float, for the floats that are integers below 10^15
    in magnitude, and its reading of a text, for the texts that are decimal
    digits of an integer of 64 bits.  The scenario stores no other float in
    a text column and no other text in an integer column. *)
Definition real_text_integral (f : float) : string :=
  match integral_value f with
  | Some z => int_text z ++ ".0"
  | None => EmptyString
  end.

Definition numeric_text_digits (s : string) : option json :=
  match s with
  | EmptyString => None
  | _ => match digits_value s 0 with
         | Some z => if z <=? INT64_MAX then Some (JInt z) else None
         | None => None
         end
  end.

Definition rt0 : Runtime :=
  mkRuntime float_of_digits isoparse_midnight sum_left
            real_text_integral numeric_text_digits.

Definition alice : User.t :=
  User.mk 1 "Alice" "alice@example.org" (Some "+15550100") "patient" (Some "dx-1").

Definition world0 : World := mkWorld (mkDb [alice] []) [].

(** Mail and SMS providers that fail on every call; a Dexcom endpoint that
    answers with [status_code] and one sample taken at midnight. *)
Definition env_with (status_code : Z) (v : Z) : Env :=
  mkEnv (Some "SG.key") (fun _ => Raises) true (fun _ => Raises)
        (Some "token")
        (fun _ _ => HttpResponse status_code
           (Some (Some [mkEgv (Some "2024-01-01T00:00:00Z") (JInt v)]))).

Definition manual_body (v : json) : dict := [("reading_value", v)].

(** A submission whose value is a string that is no number. *)
Definition non_numeric_body : dict := [("reading_value", JStr "abc")].

Definition minute : Z := 60 * 1000000.

(** Alice has entered the single value 0. *)
Definition world_zero : World :=
  snd (add_glucose_reading (env_with 200 150) rt0 1 t_one
                           (manual_body (JInt 0)) world0).

(** Alice has entered 100, 150 and 120, a minute apart. *)
Definition world_three : World :=
  snd (add_glucose_reading (env_with 200 150) rt0 1 (t_one + 2 * minute)
         (manual_body (JInt 120))
         (snd (add_glucose_reading (env_with 200 150) rt0 1
                 (t_one + minute) (manual_body (JInt 150))
                 (snd (add_glucose_reading (env_with 200 150) rt0 1
                         t_one (manual_body (JInt 100)) world0))))).

(** Alice has entered 100 at one o'clock; a minute later a sync stores the
    device sample of 150 taken at midnight. *)
Definition world_manual_then_sync : World :=
  snd (sync_dexcom_data (env_with 200 150) rt0 1 (t_one + minute)
         (snd (add_glucose_reading (env_with 200 150) rt0 1 t_one
                                   (manual_body (JInt 100)) world0))).

(** Four entries of Alice whose sum cancels in exact arithmetic and not in
    binary64, and two whose mean underflows to zero. *)
Definition world_after (values : list float) : World :=
  fold_left (fun w v =>
               snd (add_glucose_reading (env_with 200 150) rt0 1 t_one
                                        (manual_body (JFloat v)) w))
            values world0.

Definition world_cancelling : World :=
  world_after [1e16; 1; -1e16; -1]%float.

Definition world_underflow : World :=
  world_after [0x1p-1074; 0]%float.

(** ** Ordered and limited queries *)

(** Insertion into a list ordered by decreasing key; the new element goes
    before the elements with the same key. *)
Fixpoint insert_desc {A : Type} (key : A -> Z) (x : A) (l : list A) : list A :=
  match l with
  | [] => [x]
  | y :: rest =>
      if key y <=? key x then x :: l else y :: insert_desc key x rest
  end.

(** [order_by(column.desc())].  SQL leaves the order of rows with equal keys
    open; here they stay in storage order. *)
Definition order_by_desc {A : Type} (key : A -> Z) (l : list A) : list A :=
  fold_right (insert_desc key) [] l.

(** ** GET /api/glucose *)

Module ReadingView.
Record t : Type := mk {
  id : Z;
  value : float;
  timestamp : Z;
  context : json;
  notes : json;
  synced : bool
}.
End ReadingView.

(** Limits of [timedelta] and [datetime]: at most 999999999 days, and
    instants from year 1 to year 9999. *)
Definition TIMEDELTA_MAX_DAYS : Z := 999999999.
Definition DATETIME_MIN : Z := -62135596800 * 1000000.
Definition DATETIME_MAX : Z := 253402300799 * 1000000 + 999999.

(** [now - timedelta(days=days)]; [None] is an [OverflowError]. *)
Definition days_before (now days : Z) : option Z :=
  if Z.abs days <=? TIMEDELTA_MAX_DAYS then
    let t := now - timedelta_days days in
    if (DATETIME_MIN <=? t) && (t <=? DATETIME_MAX) then Some t else None
  else None.

Inductive glucose_list : Type :=
| GlucoseList (readings : list ReadingView.t) (code : Z)
| GlucoseListError (code : Z).      (* api_error(str(e), 500) *)

(** One entry of the answer (lines 458-465). *)
Definition reading_view (r : GlucoseReading.t) : ReadingView.t :=
  ReadingView.mk (GlucoseReading.reading_id r)
                 (py_round1 (GlucoseReading.reading_value r))
                 (GlucoseReading.timestamp r)
                 (GlucoseReading.context r)
                 (GlucoseReading.notes r)
                 (GlucoseReading.is_synced r).

(** [days_arg] is [request.args.get("days", type=int)]: [None] when the
    parameter is absent or is no integer, and then 7 is taken. *)
Definition get_glucose_readings (identity now : Z) (days_arg : option Z)
  : M glucose_list :=
  let days := match days_arg with Some n => n | None => 7 end in
  match days_before now days with
  | None => ret (GlucoseListError 500)
  | Some start_date =>
      d <- get_db ;;
      let readings :=
        order_by_desc GlucoseReading.timestamp
                      (readings_since d identity start_date) in
      ret (GlucoseList (map reading_view readings) 200)
  end.

(** ** POST /api/ai/chat *)

Inductive ai_outcome : Type :=
| AiRaises                          (* any exception of the client call *)
| AiContent (content : string).     (* resp.choices[0].message.content *)

(** The context handed to the assistant: user name and recent values. *)
Definition ai_context : Type := (string * list float)%type.

Record AiEnv : Type := mkAiEnv {
  OPENAI_KEY : option string;
  chat_completions_create : json -> option ai_context -> ai_outcome
}.

Inductive ai_text : Type :=
| KeyNotConfigured
| Content (text : string)
| Apology                           (* the apology carrying str(e) *)
| ErrorProcessingRequest.

Record ai_result : Type := mkAi {
  ai_success : bool;
  ai_response : ai_text
}.

Definition get_ai_response (aienv : AiEnv) (message : json)
           (user_context : option ai_context) : ai_result :=
  if negb (truthy (OPENAI_KEY aienv)) then mkAi false KeyNotConfigured
  else
    match chat_completions_create aienv message user_context with
    | AiContent content => mkAi true (Content content)
    | AiRaises => mkAi false Apology
    end.

(** The readings of one user, newest first, at most [n] of them. *)
Definition recent_readings (d : Db) (uid : Z) (n : nat) : list GlucoseReading.t :=
  firstn n (order_by_desc GlucoseReading.timestamp
              (filter (fun r => GlucoseReading.user_id r =? uid)
                      (glucose_readings d))).

Definition ai_chat (aienv : AiEnv) (identity : Z) (body : dict)
  : M (response + ai_result * Z) :=
  match require_json ["message"] body with
  | inr err => ret (inl err)
  | inl data =>
      d <- get_db ;;
      match User_query_get d identity with
      | None =>
          (* user.full_name raises *)
          ret (inr (mkAi false ErrorProcessingRequest, 500))
      | Some user =>
          let context :=
            (User.full_name user,
             map GlucoseReading.reading_value (recent_readings d identity 5)) in
          ret (inr (get_ai_response aienv (dict_get data "message")
                                    (Some context), 200))
      end
  end.

(** ** /api/food-logs *)

Module FoodLog.
Record t : Type := mk {
  log_id : Z;
  user_id : Z;
  food_name : json;
  quantity : json;
  calories : json;
  carbs : option float;
  protein : option float;
  meal_type : json;
  timestamp : Z
}.
End FoodLog.

(** One entry of the GET answer: every column but [user_id]. *)
Module FoodLogView.
Record t : Type := mk {
  id : Z;
  food_name : json;
  quantity : json;
  calories : json;
  carbs : option float;
  protein : option float;
  meal_type : json;
  timestamp : Z
}.
End FoodLogView.

Inductive http_method : Type := GET | POST.

Inductive food_response : Type :=
| FoodLogs (logs : list FoodLogView.t) (code : Z)
| FoodCreated (log_id : Z) (code : Z)
| FoodRejected (err : response)      (* the answer of require_json *)
| FoodFailed (code : Z).            (* api_error(str(e), 500) *)

Definition food_log_view (l : FoodLog.t) : FoodLogView.t :=
  FoodLogView.mk (FoodLog.log_id l) (FoodLog.food_name l) (FoodLog.quantity l)
                 (FoodLog.calories l) (FoodLog.carbs l) (FoodLog.protein l)
                 (FoodLog.meal_type l) (FoodLog.timestamp l).

Definition next_log_id (rows : list FoodLog.t) : Z :=
  1 + fold_right Z.max 0 (map FoodLog.log_id rows).

(** The INSERT of the log built from [data] (lines 663-674): the [Float]
    columns go through their processor, the driver binds the other
    parameters, and the statement fails when [food_name], which is
    [nullable=False], is NULL.  The result is the row as a later read gives
    it back. *)
Definition insert_food_log (rt : Runtime) (table : list FoodLog.t)
           (identity now : Z) (data : dict) : exn + FoodLog.t :=
  carbs <-? bind_float rt (dict_get data "carbs") ;;
  protein <-? bind_float rt (dict_get data "protein") ;;
  food_name <-? text_affinity rt (dict_get data "food_name") ;;
  quantity <-? text_affinity rt (dict_get data "quantity") ;;
  calories <-? integer_affinity rt (dict_get data "calories") ;;
  meal_type <-? text_affinity rt (dict_get data "meal_type") ;;
  match food_name with
  | JNull => inl IntegrityError
  | _ =>
      inr (FoodLog.mk (next_log_id table) identity food_name quantity
                      calories carbs protein meal_type now)
  end.

(** The handler of both methods, over the [food_logs] table. *)
Definition food_logs (rt : Runtime) (method : http_method) (identity now : Z)
           (body : dict) (table : list FoodLog.t)
  : food_response * list FoodLog.t :=
  match method with
  | GET =>
      let logs :=
        firstn 50 (order_by_desc FoodLog.timestamp
                     (filter (fun l => FoodLog.user_id l =? identity) table)) in
      (FoodLogs (map food_log_view logs) 200, table)
  | POST =>
      match require_json ["food_name"] body with
      | inr err => (FoodRejected err, table)
      | inl data =>
          (* db.session.add(log); db.session.commit() *)
          match insert_food_log rt table identity now data with
          | inr log => (FoodCreated (FoodLog.log_id log) 201, table ++ [log])
          | inl _ => (FoodFailed 500, table)        (* rollback *)
          end
      end
  end.

(** The provider answers 200 with the given samples. *)
Definition env_samples (egvs : list egv) : Env :=
  mkEnv (Some "SG.key") (fun _ => Raises) true (fun _ => Raises)
        (Some "token") (fun _ _ => HttpResponse 200 (Some (Some egvs))).

(** A good sample followed by one whose time does not parse, and a batch
    whose only sample has no value. *)
Definition samples_bad_time : list egv :=
  [mkEgv (Some "2024-01-01T00:00:00Z") (JInt 150);
   mkEgv (Some "yesterday") (JInt 90)].

Definition samples_null_value : list egv :=
  [mkEgv (Some "2024-01-01T00:00:00Z") JNull].

(** Bob has no Dexcom link; Dana is a doctor. *)
Definition bob : User.t :=
  User.mk 2 "Bob" "bob@example.org" None "patient" None.

Definition dana : User.t :=
  User.mk 3 "Dana" "dana@example.org" None "doctor" None.

Definition world_clinic : World := mkWorld (mkDb [alice; bob; dana] []) [].

(** An assistant whose client raises on every call, and one without a key. *)
Definition aienv_down : AiEnv := mkAiEnv (Some "sk-key") (fun _ _ => AiRaises).
Definition aienv_no_key : AiEnv := mkAiEnv None (fun _ _ => AiContent "hello").

(** One food log of Alice, and the body of a second one. *)
Definition food_table0 : list FoodLog.t :=
  [FoodLog.mk 1 1 (JStr "oatmeal") (JStr "1 bowl") (JInt 150) (Some 27%float)
              (Some 5%float) (JStr "breakfast") t_midnight].

Definition food_body : dict :=
  [("food_name", JStr "apple"); ("carbs", JInt 25); ("meal_type", JStr "snack")].

(** A body whose name is a number and whose note of quantity is a truth
    value: both are stored as text. *)
Definition food_body_numeric : dict :=
  [("food_name", JInt 5); ("quantity", JBool true); ("calories", JStr "120")].

(** * Properties *)

Unset Implicit Arguments.

(** ** Order of binary64 numbers *)

Lemma SFcompare_antisym (x y : spec_float) :
  SFcompare y x = option_map CompOpp (SFcompare x y).
Proof.
  unfold SFcompare.
  destruct x as [[]|[]| |[] mx ex], y as [[]|[]| |[] my ey];
    try reflexivity; cbn.
  - rewrite (Z.compare_antisym ex ey). destruct (ex ?= ey); cbn; try reflexivity.
    change (Pos.compare_cont Eq my mx) with (my ?= mx)%positive.
    change (Pos.compare_cont Eq mx my) with (mx ?= my)%positive.
    now rewrite (Pos.compare_antisym mx my).
  - rewrite (Z.compare_antisym ex ey). destruct (ex ?= ey); cbn; try reflexivity.
    change (Pos.compare_cont Eq my mx) with (my ?= mx)%positive.
    change (Pos.compare_cont Eq mx my) with (mx ?= my)%positive.
    now rewrite (Pos.compare_antisym mx my).
Qed.

Lemma leb_ltb_false (x y : float) :
  (x <=? y)%float = true -> (y <? x)%float = false.
Proof.
  rewrite leb_spec, ltb_spec. unfold SFleb, SFltb.
  rewrite (SFcompare_antisym (Prim2SF x) (Prim2SF y)).
  destruct (SFcompare (Prim2SF x) (Prim2SF y)) as [[]|]; cbn; congruence.
Qed.

Lemma is_nan_Prim2SF (x : float) :
  is_nan x = false -> Prim2SF x <> S754_nan.
Proof.
  unfold is_nan. rewrite eqb_spec. intros H E. rewrite E in H. discriminate.
Qed.

(** Two numbers other than NaN are comparable. *)
Lemma not_ltb_leb (x y : float) :
  is_nan x = false -> is_nan y = false ->
  (x <? y)%float = false -> (y <=? x)%float = true.
Proof.
  intros Hx Hy. apply is_nan_Prim2SF in Hx. apply is_nan_Prim2SF in Hy.
  rewrite leb_spec, ltb_spec. unfold SFleb, SFltb.
  rewrite (SFcompare_antisym (Prim2SF x) (Prim2SF y)).
  destruct (Prim2SF x) as [[]|[]| |[] mx ex], (Prim2SF y) as [[]|[]| |[] my ey];
    try congruence; cbn; try congruence.
  - destruct (ex ?= ey); cbn; try congruence.
    destruct (Pos.compare_cont Eq mx my); cbn; congruence.
  - destruct (ex ?= ey); cbn; try congruence.
    destruct (Pos.compare_cont Eq mx my); cbn; congruence.
Qed.

(** A value above 200 is not below 70. *)
Lemma above_200_not_below_70 (v : float) :
  (200 <? v)%float = true -> (v <? 70)%float = false.
Proof.
  rewrite !ltb_spec.
  change (Prim2SF 200) with (S754_finite false 7036874417766400 (-45)).
  change (Prim2SF 70) with (S754_finite false 4925812092436480 (-46)).
  unfold SFltb, SFcompare.
  destruct (Prim2SF v) as [[]|[]| |[] m e]; try discriminate; try reflexivity.
  destruct (Z.compare_spec (-45) e) as [E|E|E]; try discriminate.
  - subst e. reflexivity.
  - intros _. destruct (Z.compare_spec e (-46)) as [E'|E'|E'];
      first [reflexivity | lia].
Qed.

Lemma sqlite_real_not_nan (f v : float) :
  sqlite_real f = Some v -> is_nan v = false.
Proof.
  unfold sqlite_real. destruct (is_nan f) eqn:En; [discriminate|].
  destruct (f =? 0)%float; intros H; injection H as <-; [reflexivity|exact En].
Qed.

(** Storing keeps a number that is not zero, and keeps zero equal to zero. *)
Lemma sqlite_real_eqb_zero (f v : float) :
  sqlite_real f = Some v -> (v =? 0)%float = (f =? 0)%float.
Proof.
  unfold sqlite_real. destruct (is_nan f); [discriminate|].
  destruct (f =? 0)%float eqn:E; intros H; injection H as <-;
    [reflexivity|exact E].
Qed.

Lemma sqlite_real_nonzero (f v : float) :
  sqlite_real f = Some v -> (f =? 0)%float = false -> v = f.
Proof.
  unfold sqlite_real. destruct (is_nan f); [discriminate|].
  intros H E. rewrite E in H. now injection H.
Qed.

(** ** The dispatcher *)

Lemma send_email_run env to_email subject html_content w :
  exists ok,
    send_email env to_email subject html_content w
    = (ok, mkWorld (db w) (outbox w ++ [Email to_email subject html_content])).
Proof.
  unfold send_email, bind, log_call, ret.
  destruct (SENDGRID_API_KEY env) as [[|c k]|]; try (eexists; reflexivity).
  destruct (sendgrid_send env _); eexists; reflexivity.
Qed.

Lemma send_sms_run env to_phone message w :
  exists ok,
    send_sms env to_phone message w
    = (ok, mkWorld (db w) (outbox w ++ [Sms to_phone message])).
Proof.
  unfold send_sms, bind, log_call, ret.
  destruct (TWILIO_CONFIGURED env); try (eexists; reflexivity).
  destruct (twilio_create env _); eexists; reflexivity.
Qed.

(** Whatever the mail and SMS providers do, the threshold branch for a known
    user ends normally, leaves the database alone and makes exactly the calls
    of the value's class. *)
Lemma threshold_alerts_run env u val w :
  threshold_alerts env (Some u) val w
  = (inr tt, mkWorld (db w) (outbox w ++ alert_calls u val (classify val))).
Proof.
  unfold threshold_alerts, classify, alert_calls, sms_calls.
  destruct (val <? 70)%float.
  - unfold bind at 1.
    destruct (send_email_run env (User.email u) "Critical Low Glucose Alert"
                             (LowGlucoseMsg val) w) as [ok ->].
    destruct (User.phone u) as [[|c p]|]; unfold ret; try reflexivity.
    unfold bind.
    destruct (send_sms_run env (String c p) (LowGlucoseMsg val)
                (mkWorld (db w)
                   (outbox w ++ [Email (User.email u) "Critical Low Glucose Alert"
                                       (LowGlucoseMsg val)]))) as [ok' ->].
    cbn. now rewrite <- app_assoc.
  - destruct (200 <? val)%float.
    + unfold bind at 1.
      destruct (send_email_run env (User.email u) "Critical High Glucose Alert"
                               (HighGlucoseMsg val) w) as [ok ->].
      destruct (User.phone u) as [[|c p]|]; unfold ret; try reflexivity.
      unfold bind.
      destruct (send_sms_run env (String c p) (HighGlucoseMsg val)
                  (mkWorld (db w)
                     (outbox w ++ [Email (User.email u) "Critical High Glucose Alert"
                                         (HighGlucoseMsg val)]))) as [ok' ->].
      cbn. now rewrite <- app_assoc.
    + unfold ret. rewrite app_nil_r. now destruct w.
Qed.

(** Without a user row the branch raises exactly when the value calls for
    an alert; nothing is dispatched either way. *)
Lemma threshold_alerts_no_user env val w :
  threshold_alerts env None val w
  = (match classify val with
     | NoAlert => inr tt
     | _ => inl AttributeError
     end, w).
Proof.
  unfold threshold_alerts, classify, ret.
  destruct (val <? 70)%float; [reflexivity|].
  destruct (200 <? val)%float; reflexivity.
Qed.

Lemma require_json_single (key : string) (data : dict) :
  require_json [key] data
  = if present data key then inl data
    else inr (api_error (MissingFields [key]) 400).
Proof.
  unfold require_json, present. cbn.
  destruct (dict_mem data key); cbn; [|reflexivity].
  destruct (in_empty_values (dict_get data key)); reflexivity.
Qed.

(** ** The insert of a reading *)

(** An insert succeeds exactly when the three parameters are bound and the
    value is not NULL; the row carries the next id and what was bound. *)
Lemma insert_reading_inr rt rows p row :
  insert_reading rt rows p = inr row <->
  exists v context notes,
    bind_float rt (new_value p) = inr (Some v) /\
    text_affinity rt (new_context p) = inr context /\
    text_affinity rt (new_notes p) = inr notes /\
    row = GlucoseReading.mk (next_reading_id rows) (new_user_id p) v
                            (new_timestamp p) context notes (new_synced p).
Proof.
  unfold insert_reading, try_bind. split.
  - destruct (bind_float rt (new_value p)) as [e|[v|]]; try discriminate;
      destruct (text_affinity rt (new_context p)) as [e|context]; try discriminate;
      destruct (text_affinity rt (new_notes p)) as [e|notes]; try discriminate.
    intros H. injection H as <-. exists v, context, notes. now repeat split.
  - intros (v & context & notes & -> & -> & -> & ->). reflexivity.
Qed.

Lemma insert_reading_id rt rows p row :
  insert_reading rt rows p = inr row ->
  GlucoseReading.reading_id row = next_reading_id rows /\
  GlucoseReading.user_id row = new_user_id p /\
  GlucoseReading.timestamp row = new_timestamp p /\
  GlucoseReading.is_synced row = new_synced p.
Proof.
  intros H. apply insert_reading_inr in H.
  destruct H as (v & context & notes & _ & _ & _ & ->). now repeat split.
Qed.

(** What a [Float] column holds is the float that [float] gives, as stored. *)
Lemma bind_float_Some rt (v : json) (y : float) :
  bind_float rt v = inr (Some y) ->
  exists x, py_float rt v = inr x /\ sqlite_real x = Some y.
Proof.
  unfold bind_float. intros H.
  destruct (py_float rt v) as [e|x] eqn:E.
  - destruct v; discriminate.
  - exists x. split; [reflexivity|]. destruct v; try discriminate; congruence.
Qed.

(** A stored value is never NaN. *)
Lemma insert_reading_not_nan rt rows p row :
  insert_reading rt rows p = inr row ->
  is_nan (GlucoseReading.reading_value row) = false.
Proof.
  intros H. apply insert_reading_inr in H.
  destruct H as (v & context & notes & Hv & _ & _ & ->). cbn.
  destruct (bind_float_Some _ _ _ Hv) as (x & _ & Hx).
  exact (sqlite_real_not_nan _ _ Hx).
Qed.

(** What a manual submission stores for the float [x] that [float] gave. *)
Lemma insert_manual_value rt rows identity x now context notes row :
  insert_reading rt rows (mkNew identity (JFloat x) now context notes false)
  = inr row ->
  sqlite_real x = Some (GlucoseReading.reading_value row).
Proof.
  intros H. apply insert_reading_inr in H.
  destruct H as (v & c & n & Hv & _ & _ & ->). cbn in *. congruence.
Qed.

(** ** The manual-entry handler, case by case *)

(** A submission is rejected with nothing stored and nothing dispatched
    (missing value, conversion failure, failed insert), or its row is
    committed; then a known user gets the calls of the value's class and
    the answer is 201, and under an identity without a user row the answer
    is 201 when no alert is due and 500 otherwise. *)
Lemma add_glucose_reading_cases env rt identity now body w :
  (exists msg code,
      add_glucose_reading env rt identity now body w = (ApiError msg code, w) /\
      (code = 400 \/ code = 500) /\
      (present body "reading_value" = false \/
       (exists e, py_float rt (dict_get body "reading_value") = inl e) \/
       (exists x e,
           py_float rt (dict_get body "reading_value") = inr x /\
           insert_reading rt (glucose_readings (db w))
                          (submitted identity now body x) = inl e))) \/
  (exists x row,
      present body "reading_value" = true /\
      py_float rt (dict_get body "reading_value") = inr x /\
      insert_reading rt (glucose_readings (db w)) (submitted identity now body x)
      = inr row /\
      let d' := mkDb (users (db w)) (glucose_readings (db w) ++ [row]) in
      let v := GlucoseReading.reading_value row in
      add_glucose_reading env rt identity now body w
      = match User_query_get (db w) identity with
        | Some u =>
            (ReadingCreated (GlucoseReading.reading_id row) 201,
             mkWorld d' (outbox w ++ alert_calls u v (classify v)))
        | None =>
            (match classify v with
             | NoAlert => ReadingCreated (GlucoseReading.reading_id row) 201
             | _ => api_error (ExnText AttributeError) 500
             end, mkWorld d' (outbox w))
        end).
Proof.
  unfold add_glucose_reading. rewrite require_json_single.
  destruct (present body "reading_value") eqn:Hp.
  2:{ left. eexists. eexists. split; [reflexivity|]. split; auto. }
  destruct (py_float rt (dict_get body "reading_value")) as [e|x] eqn:Hf.
  { left. eexists. eexists. split; [reflexivity|]. split; eauto. }
  unfold bind at 1. unfold get_db. cbv beta iota zeta.
  destruct (insert_reading rt (glucose_readings (db w))
                           (submitted identity now body x)) as [e|row] eqn:Hi.
  { left. eexists. eexists. split; [reflexivity|]. split; [auto|].
    right. right. now exists x, e. }
  right. exists x, row. repeat split; try assumption.
  unfold bind, get_db, put_db. cbv beta iota zeta. rewrite Hi.
  destruct (User_query_get (db w) identity) as [u|].
  - rewrite threshold_alerts_run. reflexivity.
  - rewrite threshold_alerts_no_user.
    destruct (classify (GlucoseReading.reading_value row)); reflexivity.
Qed.

(** The manual-entry handler leaves [users] alone and appends at most one
    row: the row the insert of the submitted object gives. *)
Lemma add_glucose_reading_db env rt identity now body w :
  let w' := snd (add_glucose_reading env rt identity now body w) in
  users (db w') = users (db w) /\
  (w' = w \/
   exists x row,
     py_float rt (dict_get body "reading_value") = inr x /\
     insert_reading rt (glucose_readings (db w)) (submitted identity now body x)
     = inr row /\
     glucose_readings (db w') = glucose_readings (db w) ++ [row]).
Proof.
  destruct (add_glucose_reading_cases env rt identity now body w)
    as [(msg & code & -> & _) | (x & row & _ & Hf & Hi & H)].
  - cbn. auto.
  - cbv zeta in H. rewrite H.
    destruct (User_query_get (db w) identity); cbn; split; try reflexivity;
      right; exists x, row; auto.
Qed.

Lemma snoc_neq {A : Type} (l : list A) (x : A) : l ++ [x] <> l.
Proof.
  intros H. apply (f_equal (@List.length A)) in H.
  rewrite length_app in H. cbn in H. lia.
Qed.

(** ** Threshold alerts on manual entry *)

Lemma classify_low (v : float) : (v <? 70)%float = true -> classify v = LowAlert.
Proof.
  intros H. unfold classify. now rewrite H.
Qed.

Lemma classify_high (v : float) : (200 <? v)%float = true -> classify v = HighAlert.
Proof.
  intros H. unfold classify. now rewrite (above_200_not_below_70 v H), H.
Qed.

Lemma classify_none (v : float) :
  (70 <=? v)%float = true -> (v <=? 200)%float = true -> classify v = NoAlert.
Proof.
  intros H1 H2. unfold classify.
  now rewrite (leb_ltb_false _ _ H1), (leb_ltb_false _ _ H2).
Qed.

(** On a number other than NaN exactly the three ranges occur. *)
Lemma three_ranges (v : float) :
  is_nan v = false ->
  (v <? 70)%float = true \/ (200 <? v)%float = true \/
  ((70 <=? v)%float = true /\ (v <=? 200)%float = true).
Proof.
  intros Hn.
  destruct (v <? 70)%float eqn:E1; [now left|].
  destruct (200 <? v)%float eqn:E2; [now right; left|].
  right. right. split; apply not_ltb_leb; try assumption; reflexivity.
Qed.

Lemma alert_calls_nil (u : User.t) (v : float) (a : alert) :
  alert_calls u v a = [] <-> a = NoAlert.
Proof.
  destruct a; cbn; split; intros H; try reflexivity; discriminate.
Qed.

(** C3, as the handler behaves.  The class of a value depends on the value
    alone: below 70 it is [LowAlert], above 200 it is [HighAlert], and from
    70 to 200, both ends included, it is [NoAlert].  For a caller who has a
    row in [users], a submission that stores nothing dispatches nothing, and
    a submission that stores a reading dispatches by the stored value alone:
    below 70 the low alert goes out, above 200 the high alert, each as an
    email and, when a phone number is on file, an SMS; from 70 to 200
    nothing goes out.  A stored value is in one of the three ranges, so a
    notification is dispatched exactly in the low and high cases. *)
Theorem C3_alert_classification env rt identity now body w (u : User.t) :
  User_query_get (db w) identity = Some u ->
  let w' := snd (add_glucose_reading env rt identity now body w) in
  (glucose_readings (db w') = glucose_readings (db w) \/
   exists row, glucose_readings (db w') = glucose_readings (db w) ++ [row]) /\
  (glucose_readings (db w') = glucose_readings (db w) -> outbox w' = outbox w) /\
  (forall row,
      glucose_readings (db w') = glucose_readings (db w) ++ [row] ->
      let v := GlucoseReading.reading_value row in
      ((v <? 70)%float = true ->
       classify v = LowAlert /\
       outbox w'
       = outbox w
         ++ Email (User.email u) "Critical Low Glucose Alert" (LowGlucoseMsg v)
            :: sms_calls u (LowGlucoseMsg v)) /\
      ((200 <? v)%float = true ->
       classify v = HighAlert /\
       outbox w'
       = outbox w
         ++ Email (User.email u) "Critical High Glucose Alert" (HighGlucoseMsg v)
            :: sms_calls u (HighGlucoseMsg v)) /\
      ((70 <=? v)%float = true -> (v <=? 200)%float = true ->
       classify v = NoAlert /\ outbox w' = outbox w) /\
      ((v <? 70)%float = true \/ (200 <? v)%float = true \/
       ((70 <=? v)%float = true /\ (v <=? 200)%float = true)) /\
      (classify v = NoAlert <-> outbox w' = outbox w)) /\
  (forall v : float,
      ((v <? 70)%float = true -> classify v = LowAlert) /\
      ((200 <? v)%float = true -> classify v = HighAlert) /\
      ((70 <=? v)%float = true -> (v <=? 200)%float = true ->
       classify v = NoAlert)) /\
  classify 70 = NoAlert /\ classify 200 = NoAlert.
Proof.
  intros Hu w'. subst w'.
  assert (Hclass :
            (forall v : float,
                ((v <? 70)%float = true -> classify v = LowAlert) /\
                ((200 <? v)%float = true -> classify v = HighAlert) /\
                ((70 <=? v)%float = true -> (v <=? 200)%float = true ->
                 classify v = NoAlert)) /\
            classify 70 = NoAlert /\ classify 200 = NoAlert).
  { split; [|split; reflexivity]. intros v.
    split; [apply classify_low|]. split; [apply classify_high|].
    apply classify_none. }
  destruct (add_glucose_reading_cases env rt identity now body w)
    as [(msg & code & -> & _) | (x & row0 & _ & _ & Hi & H)].
  - cbn [snd]. split; [now left|]. split; [reflexivity|].
    split; [|exact Hclass].
    intros row Hrow. symmetry in Hrow. now apply snoc_neq in Hrow.
  - cbv zeta in H. rewrite Hu in H. rewrite H. cbn [snd db glucose_readings outbox].
    split; [right; now exists row0|].
    split; [intros E; now apply snoc_neq in E|].
    split; [|exact Hclass].
    intros row Hrow. apply app_inj_tail in Hrow. destruct Hrow as [_ <-].
    cbv zeta.
    split; [|split; [|split; [|split]]].
    + intros Hv. split; [now apply classify_low|].
      now rewrite (classify_low _ Hv).
    + intros Hv. split; [now apply classify_high|].
      now rewrite (classify_high _ Hv).
    + intros H1 H2. split; [now apply classify_none|].
      rewrite (classify_none _ H1 H2). apply app_nil_r.
    + apply three_ranges. exact (insert_reading_not_nan _ _ _ _ Hi).
    + split.
      * intros ->. apply app_nil_r.
      * intros E. apply alert_calls_nil with (u := u)
                    (v := GlucoseReading.reading_value row0).
        apply (app_inv_head (outbox w)). now rewrite app_nil_r.
Qed.

(** Alice submits 55: the reading is stored and the low alert goes out by
    email and SMS. *)
Lemma C3_alert_classification_witness :
  glucose_readings
    (db (snd (add_glucose_reading (env_with 200 150) rt0 1 t_one
                                  (manual_body (JInt 55)) world0)))
  = [GlucoseReading.mk 1 1 55 t_one JNull JNull false] /\
  outbox (snd (add_glucose_reading (env_with 200 150) rt0 1 t_one
                                   (manual_body (JInt 55)) world0))
  = [Email "alice@example.org" "Critical Low Glucose Alert" (LowGlucoseMsg 55);
     Sms "+15550100" (LowGlucoseMsg 55)].
Proof.
  split; [reflexivity|].
  destruct (@C3_alert_classification (env_with 200 150) rt0 1 t_one
              (manual_body (JInt 55)) world0 alice eq_refl)
    as (_ & _ & Hrow & _).
  destruct (Hrow (GlucoseReading.mk 1 1 55 t_one JNull JNull false) eq_refl)
    as (Hlow & _).
  destruct (Hlow eq_refl) as [_ Hout]. exact Hout.
Defined.

(** C3 as the specification words it fails under an identity that has no
    row in [users]: the value 55 is stored, it is below 70 and so of class
    [LowAlert], and no notification is dispatched. *)
Lemma C3_unregistered_low_value_counterexample :
  User_query_get (db world0) 2 = None /\
  glucose_readings
    (db (snd (add_glucose_reading (env_with 200 150) rt0 2 t_one
                                  (manual_body (JInt 55)) world0)))
  = [GlucoseReading.mk 1 2 55 t_one JNull JNull false] /\
  (55 <? 70)%float = true /\
  classify 55 = LowAlert /\
  outbox (snd (add_glucose_reading (env_with 200 150) rt0 2 t_one
                                   (manual_body (JInt 55)) world0))
  = outbox world0.
Proof.
  repeat split.
Qed.

(** ** Writes do not depend on the dispatcher *)

(** C8, as the handler behaves.  For a caller who has a row in [users],
    and for every behaviour of the mail and SMS providers (unconfigured,
    raising, timing out, answering with any status): the answer and the
    database after a manual submission are the same as under any other
    behaviour of the providers; a submission that has stored a reading is
    answered with status 201 and the id of that reading, the next id of the
    table; and a submission either is answered with an error and leaves the
    world as it was, or stores exactly one reading. *)
Theorem C8_write_independent_of_dispatch
        env env' rt identity now body w (u : User.t) :
  User_query_get (db w) identity = Some u ->
  let r := add_glucose_reading env rt identity now body w in
  let r' := add_glucose_reading env' rt identity now body w in
  fst r' = fst r /\
  db (snd r') = db (snd r) /\
  (forall row,
      glucose_readings (db (snd r)) = glucose_readings (db w) ++ [row] ->
      fst r = ReadingCreated (GlucoseReading.reading_id row) 201 /\
      GlucoseReading.reading_id row = next_reading_id (glucose_readings (db w)) /\
      GlucoseReading.user_id row = identity /\
      GlucoseReading.timestamp row = now) /\
  ((exists msg code, fst r = ApiError msg code /\ snd r = w) \/
   (exists row,
       db (snd r)
       = mkDb (users (db w)) (glucose_readings (db w) ++ [row]))).
Proof.
  intros Hu r r'. subst r r'.
  destruct (add_glucose_reading_cases env' rt identity now body w)
    as [(msg' & code' & H' & _ & Hwhy') | (x' & row' & Hp' & Hf' & Hi' & H')];
    destruct (add_glucose_reading_cases env rt identity now body w)
      as [(msg & code & H & _ & Hwhy) | (x & row & Hp & Hf & Hi & H)].
  - rewrite H, H'. cbn [fst snd].
    assert (E : ApiError msg' code' = ApiError msg code).
    { unfold add_glucose_reading in H, H'.
      destruct (require_json ["reading_value"] body) as [data|err];
        [|unfold ret in *; congruence].
      destruct (py_float rt (dict_get data "reading_value")) as [e|y];
        [unfold ret in *; congruence|].
      unfold bind, get_db in H, H'.
      destruct (insert_reading rt (glucose_readings (db w)) _) as [e|rw];
        [unfold ret in *; congruence|].
      exfalso. unfold put_db, bind in H. rewrite Hu, threshold_alerts_run in H.
      unfold ret in H. discriminate. }
    split; [exact E|]. split; [reflexivity|].
    split; [|left; now exists msg, code].
    intros row Hrow. symmetry in Hrow. now apply snoc_neq in Hrow.
  - exfalso. destruct Hwhy' as [Hq | [[e He] | (y & e & Hy & He)]]; congruence.
  - exfalso. destruct Hwhy as [Hq | [[e He] | (y & e & Hy & He)]]; congruence.
  - cbv zeta in H, H'. rewrite Hu in H, H'. rewrite H, H'.
    cbn [fst snd db glucose_readings].
    assert (x' = x) by congruence. subst x'.
    assert (row' = row) by congruence. subst row'.
    split; [reflexivity|]. split; [reflexivity|].
    split; [|right; now exists row].
    intros row0 Hrow. apply app_inj_tail in Hrow. destruct Hrow as [_ <-].
    destruct (insert_reading_id _ _ _ _ Hi) as (Hid & Hru & Hrt & _).
    now repeat split.
Qed.

(** In the scenario both providers raise on every call, the value 55 is a
    low alert, and the reading is stored and answered with 201 all the
    same, as it is when the providers work. *)
Lemma C8_write_independent_of_dispatch_witness :
  send_email (env_with 200 150) "alice@example.org" "Critical Low Glucose Alert"
             (LowGlucoseMsg 55) world0
  = (false, mkWorld (db world0)
                    [Email "alice@example.org" "Critical Low Glucose Alert"
                           (LowGlucoseMsg 55)]) /\
  fst (add_glucose_reading (env_with 200 150) rt0 1 t_one
                           (manual_body (JInt 55)) world0)
  = ReadingCreated 1 201 /\
  fst (add_glucose_reading
         (mkEnv (Some "SG.key") (fun _ => Returns 202) true (fun _ => Returns 201)
                None (fun _ _ => RequestRaises))
         rt0 1 t_one (manual_body (JInt 55)) world0)
  = fst (add_glucose_reading (env_with 200 150) rt0 1 t_one
                             (manual_body (JInt 55)) world0).
Proof.
  split; [reflexivity|]. split; [reflexivity|].
  exact (proj1 (@C8_write_independent_of_dispatch
                  (env_with 200 150)
                  (mkEnv (Some "SG.key") (fun _ => Returns 202) true
                         (fun _ => Returns 201) None (fun _ _ => RequestRaises))
                  rt0 1 t_one (manual_body (JInt 55)) world0 alice eq_refl)).
Defined.

(** C8 as the specification words it fails under an identity that has no
    row in [users]: the value 250 is stored under id 1, and the answer is
    not the success with that id but an error with status 500. *)
Lemma C8_stored_then_500_counterexample :
  User_query_get (db world0) 2 = None /\
  glucose_readings
    (db (snd (add_glucose_reading (env_with 200 150) rt0 2 t_one
                                  (manual_body (JInt 250)) world0)))
  = [GlucoseReading.mk 1 2 250 t_one JNull JNull false] /\
  fst (add_glucose_reading (env_with 200 150) rt0 2 t_one
                           (manual_body (JInt 250)) world0)
  = api_error (ExnText AttributeError) 500 /\
  fst (add_glucose_reading (env_with 200 150) rt0 2 t_one
                           (manual_body (JInt 250)) world0)
  <> ReadingCreated 1 201.
Proof.
  repeat split. discriminate.
Qed.

(** ** Non-numeric values *)

(** C4, as the handler behaves.  A submission whose value is present but
    cannot be converted by [float] is answered with status 500 and the text
    of the conversion error; nothing is stored and nothing is dispatched. *)
Theorem C4_non_numeric_value_rejected
        env rt identity now body w (e : exn) :
  present body "reading_value" = true ->
  py_float rt (dict_get body "reading_value") = inl e ->
  add_glucose_reading env rt identity now body w
  = (api_error (ExnText e) 500, w).
Proof.
  intros Hp Hf. unfold add_glucose_reading.
  now rewrite require_json_single, Hp, Hf.
Qed.

Lemma C4_non_numeric_value_rejected_witness :
  add_glucose_reading (env_with 200 150) rt0 1 t_one
                      non_numeric_body world0
  = (api_error (ExnText ValueError) 500, world0).
Proof.
  exact (@C4_non_numeric_value_rejected (env_with 200 150) rt0
           1 t_one non_numeric_body world0 ValueError eq_refl eq_refl).
Defined.

(** C4 with status 400, as the specification words it, fails on the string
    "abc": the value is present, [float] rejects it, and the status of the
    answer is not 400. *)
Lemma C4_status_400_counterexample :
  present non_numeric_body "reading_value" = true /\
  py_float rt0 (dict_get non_numeric_body "reading_value")
  = inl ValueError /\
  response_code (fst (add_glucose_reading (env_with 200 150) rt0
                                          1 t_one non_numeric_body world0))
  <> 400.
Proof.
  repeat split. cbn. discriminate.
Qed.

(** An integer beyond the range of binary64 is present and numeric, and
    [float] raises on it; a list as note is refused by the driver.  Both
    submissions are answered with 500 and store nothing. *)
Example add_glucose_reading_refusals :
  add_glucose_reading (env_with 200 150) rt0 1 t_one
                      (manual_body (JInt (10 ^ 400))) world0
  = (api_error (ExnText OverflowError) 500, world0) /\
  add_glucose_reading (env_with 200 150) rt0 1 t_one
                      [("reading_value", JInt 55); ("notes", JArr [JStr "a"])]
                      world0
  = (api_error (ExnText ProgrammingError) 500, world0) /\
  add_glucose_reading (env_with 200 150) rt0 1 t_one
                      (manual_body (JFloat nan)) world0
  = (api_error (ExnText IntegrityError) 500, world0).
Proof.
  repeat split.
Qed.

(** Numbers and truth values in the text columns are stored as text. *)
Example add_glucose_reading_text_columns :
  glucose_readings
    (db (snd (add_glucose_reading (env_with 200 150) rt0 1 t_one
                [("reading_value", JInt 90); ("context", JInt 5);
                 ("notes", JBool true)] world0)))
  = [GlucoseReading.mk 1 1 90 t_one (JStr "5") (JStr "1") false].
Proof.
  reflexivity.
Qed.
(** ** Dexcom sync: outcomes *)

Section SyncFacts.
Variable env : Env.
Variable rt : Runtime.

(** A sync call either fails and leaves the world as it was, or it got a
    200 answer, ran the loop to its end and committed the flushed rows. *)
Lemma sync_dexcom_data_cases uid now w :
  (exists err, sync_dexcom_data env rt uid now w = (SyncErr err, w)) \/
  (exists u data s n rows2,
      User_query_get (db w) uid = Some u /\
      truthy (User.dexcom_id u) = true /\
      truthy (DEXCOM_ACCESS_TOKEN env) = true /\
      requests_get env (now - timedelta_hours 24) now
      = HttpResponse 200 (Some data) /\
      sync_loop rt uid (match data with Some l => l | None => [] end)
                (glucose_readings (db w), []) 0 = inr (s, n) /\
      flush rt (fst s) (snd s) = inr rows2 /\
      sync_dexcom_data env rt uid now w
      = (SyncOk n, mkWorld (mkDb (users (db w)) rows2) (outbox w))).
Proof.
  unfold sync_dexcom_data, bind, get_db, put_db, ret.
  destruct (User_query_get (db w) uid) as [u|]; [|left; eexists; reflexivity].
  destruct (truthy (User.dexcom_id u)) eqn:Hd; cbn [negb];
    [|left; eexists; reflexivity].
  destruct (truthy (DEXCOM_ACCESS_TOKEN env)) eqn:Ht; cbn [negb];
    [|left; eexists; reflexivity].
  cbv zeta.
  destruct (requests_get env (now - timedelta_hours 24) now)
    as [|status_code body] eqn:Hr; [left; eexists; reflexivity|].
  destruct (Z.eqb_spec status_code 200) as [->|Hne]; cbn [negb];
    [|left; eexists; reflexivity].
  destruct body as [data|]; [|left; eexists; reflexivity].
  destruct (sync_loop rt uid _ (glucose_readings (db w), []) 0)
    as [e|[s n]] eqn:Hl; [left; eexists; reflexivity|].
  destruct (flush rt (fst s) (snd s)) as [e|rows2] eqn:Hf;
    [left; eexists; reflexivity|].
  right. exists u, data, s, n, rows2. repeat split; try assumption.
Qed.

(** The clock enters a sync call only through the window it asks for. *)
Lemma sync_dexcom_data_same_answer uid now1 now2 w :
  requests_get env (now2 - timedelta_hours 24) now2
  = requests_get env (now1 - timedelta_hours 24) now1 ->
  sync_dexcom_data env rt uid now2 w
  = sync_dexcom_data env rt uid now1 w.
Proof.
  intros H. unfold sync_dexcom_data, bind, get_db. cbv zeta.
  now rewrite H.
Qed.

Lemma existsb_app_l {A} (f : A -> bool) (l l' : list A) :
  existsb f l = true -> existsb f (l ++ l') = true.
Proof.
  intros H. rewrite existsb_app, H. reflexivity.
Qed.

(** When every timed sample is already stored, the loop adds nothing. *)
Lemma sync_loop_covered uid egvs rows :
  covered rt uid rows egvs ->
  forall n, sync_loop rt uid egvs (rows, []) n = inr ((rows, []), n).
Proof.
  induction egvs as [|e rest IH]; intros Hc n; [reflexivity|].
  assert (Hrest : covered rt uid rows rest).
  { intros e' c st Hin. apply Hc. now right. }
  cbn [sync_loop].
  destruct (systemTime e) as [[|c st]|] eqn:Est; try (now apply IH).
  destruct (Hc e c st (or_introl eq_refl) Est) as (ts & -> & Hex).
  cbn [fst snd flush]. rewrite Hex. now apply IH.
Qed.

(** What a completed loop followed by a successful flush has done: the
    pending objects were flushed, then one synced row was appended for each
    key that was not stored yet; the count is the number of those rows, no
    two of them share a timestamp, and afterwards every timed sample is
    stored. *)
Lemma sync_loop_inserts uid egvs :
  forall rows pending n s' n' rows2,
    sync_loop rt uid egvs (rows, pending) n = inr (s', n') ->
    flush rt (fst s') (snd s') = inr rows2 ->
    exists rows1 new,
      flush rt rows pending = inr rows1 /\
      rows2 = rows1 ++ new /\
      n' = (n + List.length new)%nat /\
      NoDup (map GlucoseReading.timestamp new) /\
      Forall (fun r => GlucoseReading.user_id r = uid /\
                       GlucoseReading.is_synced r = true /\
                       existsb (same_key uid (GlucoseReading.timestamp r)) rows1
                       = false) new /\
      covered rt uid rows2 egvs.
Proof.
  induction egvs as [|e rest IH]; intros rows pending n s' n' rows2 Hl Hf.
  - cbn in Hl. injection Hl as <- <-. cbn [fst snd] in Hf.
    exists rows2, []. rewrite app_nil_r, Nat.add_0_r.
    repeat split; try assumption; try constructor.
    intros e c st [].
  - cbn [sync_loop] in Hl.
    destruct (systemTime e) as [[|c st]|] eqn:Est.
    + destruct (IH _ _ _ _ _ _ Hl Hf)
        as (rows1 & new & H1 & H2 & H3 & H4 & H5 & H6).
      exists rows1, new. repeat split; try assumption.
      intros e' c' st' [<-|Hin] Hst; [congruence | now apply (H6 e' c' st')].
    + destruct (isoparse rt (String c st)) as [ts|] eqn:Eiso; [|discriminate].
      cbn [fst snd] in Hl.
      destruct (flush rt rows pending) as [err|rows1] eqn:Efl; [discriminate|].
      destruct (existsb (same_key uid ts) rows1) eqn:Eex.
      * destruct (IH _ _ _ _ _ _ Hl Hf)
          as (rows1' & new & H1 & H2 & H3 & H4 & H5 & H6).
        cbn in H1. injection H1 as <-.
        exists rows1, new. repeat split; try assumption.
        intros e' c' st' [<-|Hin] Hst; [|now apply (H6 e' c' st')].
        rewrite Est in Hst. injection Hst as <- <-.
        exists ts. split; [assumption|]. subst rows2. now apply existsb_app_l.
      * destruct (IH _ _ _ _ _ _ Hl Hf)
          as (rows1' & new & H1 & H2 & H3 & H4 & H5 & H6).
        cbn [fst snd flush] in H1.
        destruct (insert_reading rt rows1 _) as [err|row] eqn:Ei; [discriminate|].
        injection H1 as <-.
        destruct (insert_reading_id _ _ _ _ Ei) as (_ & Hru & Hrt & Hrs).
        cbn in Hru, Hrt, Hrs.
        assert (Hrow : same_key uid ts row = true).
        { unfold same_key. now rewrite Hru, Hrt, !Z.eqb_refl. }
        exists rows1, (row :: new).
        split; [reflexivity|].
        split; [now rewrite H2, <- app_assoc|].
        split; [rewrite H3; cbn; lia|].
        rewrite Forall_forall in H5.
        split; [|split].
        -- cbn. constructor; [|assumption].
           intros Hin. apply in_map_iff in Hin. destruct Hin as (r & Hts & Hr).
           destruct (H5 r Hr) as (_ & _ & Hno).
           rewrite existsb_app, Hts, Hrt in Hno. cbn [existsb] in Hno.
           rewrite Hrow in Hno. now destruct (existsb _ rows1).
        -- constructor; [rewrite Hrt; now repeat split|].
           apply Forall_forall. intros r Hr.
           destruct (H5 r Hr) as (Hu & Hs & Hno).
           repeat split; try assumption.
           rewrite existsb_app in Hno. now apply orb_false_elim in Hno.
        -- intros e' c' st' [<-|Hin] Hst; [|now apply (H6 e' c' st')].
           rewrite Est in Hst. injection Hst as <- <-.
           exists ts. split; [assumption|]. subst rows2.
           apply existsb_app_l. rewrite existsb_app. cbn.
           rewrite Hrow. now destruct (existsb _ rows1).
    + destruct (IH _ _ _ _ _ _ Hl Hf)
        as (rows1 & new & H1 & H2 & H3 & H4 & H5 & H6).
      exists rows1, new. repeat split; try assumption.
      intros e' c' st' [<-|Hin] Hst; [congruence | now apply (H6 e' c' st')].
Qed.
End SyncFacts.

(** C9.  A sync call makes no call to the notification dispatcher, whatever
    the provider answers and whatever the values of the samples it inserts:
    the log of dispatcher calls after the call is the log before it. *)
Theorem C9_sync_dispatches_nothing env rt (user_id now : Z) (w : World) :
  outbox (snd (sync_dexcom_data env rt user_id now w)) = outbox w.
Proof.
  destruct (sync_dexcom_data_cases env rt user_id now w)
    as [[err ->] | (u & data & s & n & rows2 & _ & _ & _ & _ & _ & _ & ->)];
    reflexivity.
Qed.

(** A sample of 40 mg/dL is stored by a sync without any dispatcher call;
    the same value entered by hand raises the low alert. *)
Example sync_low_value_no_alert :
  sync_dexcom_data (env_with 200 40) rt0 1 t_one world0
  = (SyncOk 1,
     mkWorld (mkDb [alice] [GlucoseReading.mk 1 1 40 t_midnight JNull JNull true])
             []) /\
  outbox (snd (add_glucose_reading (env_with 200 40) rt0 1 t_one
                                   (manual_body (JInt 40)) world0))
  = alert_calls alice 40 LowAlert.
Proof.
  split; reflexivity.
Qed.

(** C7.  When the provider answers with a status other than 200, the sync
    call returns the provider error carrying that status and the world is
    exactly as before: no row is written.  The route reports it with
    status 400. *)
Theorem C7_provider_error_no_writes
        env rt (user_id now : Z) (w : World) (user : User.t)
        (status_code : Z) body :
  User_query_get (db w) user_id = Some user ->
  truthy (User.dexcom_id user) = true ->
  truthy (DEXCOM_ACCESS_TOKEN env) = true ->
  requests_get env (now - timedelta_hours 24) now
  = HttpResponse status_code body ->
  status_code <> 200 ->
  sync_dexcom_data env rt user_id now w
  = (SyncErr (DexcomApiError status_code), w) /\
  sync_dexcom env rt user_id now w
  = ((SyncErr (DexcomApiError status_code), 400), w).
Proof.
  intros Hu Hd Ht Hr Hne.
  assert (H : sync_dexcom_data env rt user_id now w
              = (SyncErr (DexcomApiError status_code), w)).
  { unfold sync_dexcom_data, bind, get_db, ret. rewrite Hu, Hd, Ht.
    cbv zeta. rewrite Hr. cbn [negb].
    destruct (Z.eqb_spec status_code 200) as [E|_]; [contradiction|reflexivity]. }
  split; [exact H|].
  unfold sync_dexcom, bind. now rewrite H.
Qed.

Lemma C7_provider_error_no_writes_witness :
  sync_dexcom_data (env_with 503 150) rt0 1 t_one world0
  = (SyncErr (DexcomApiError 503), world0) /\
  sync_dexcom (env_with 503 150) rt0 1 t_one world0
  = ((SyncErr (DexcomApiError 503), 400), world0).
Proof.
  apply (C7_provider_error_no_writes (env_with 503 150) rt0
           1 t_one world0 alice 503
           (Some (Some [mkEgv (Some "2024-01-01T00:00:00Z") (JInt 150)])));
    try reflexivity.
  discriminate.
Defined.

(** ** Dexcom sync: idempotence *)

(** C2.  Two sync calls in succession for which the provider gives the same
    answer.  The first call appends rows for keys that were not stored yet,
    all device-sourced and for this user, no two with the same timestamp, and
    when it succeeds its count is their number.  The second call leaves the
    world as the first left it, and when the first succeeded the second
    succeeds with [readings_added] equal to 0: every sample is found stored
    and skipped. *)
Theorem C2_sync_idempotent env rt (user_id now1 now2 : Z) (w : World) :
  requests_get env (now2 - timedelta_hours 24) now2
  = requests_get env (now1 - timedelta_hours 24) now1 ->
  let first := sync_dexcom_data env rt user_id now1 w in
  let second := sync_dexcom_data env rt user_id now2 (snd first) in
  snd second = snd first /\
  (forall n, fst first = SyncOk n -> fst second = SyncOk 0) /\
  exists new,
    glucose_readings (db (snd first)) = glucose_readings (db w) ++ new /\
    NoDup (map GlucoseReading.timestamp new) /\
    Forall (fun r => GlucoseReading.user_id r = user_id /\
                     GlucoseReading.is_synced r = true /\
                     existsb (same_key user_id (GlucoseReading.timestamp r))
                             (glucose_readings (db w)) = false) new /\
    (forall n, fst first = SyncOk n -> List.length new = n).
Proof.
  intros Hsame first second. subst second.
  rewrite (sync_dexcom_data_same_answer env rt user_id now1 now2 _ Hsame).
  subst first.
  destruct (sync_dexcom_data_cases env rt user_id now1 w)
    as [[err H] | (u & data & s & n & rows2 & Hu & Hd & Ht & Hr & Hl & Hf & H)].
  - rewrite H. cbn [fst snd]. rewrite H. cbn [fst snd].
    split; [reflexivity|]. split; [discriminate|].
    exists []. rewrite app_nil_r.
    repeat split; try constructor. discriminate.
  - rewrite H. cbn [fst snd].
    destruct s as [rows' pending'].
    destruct (sync_loop_inserts rt user_id _ _ _ _ _ _ _ Hl Hf)
      as (rows1 & new & H1 & H2 & H3 & H4 & H5 & H6).
    cbn in H1. injection H1 as <-. cbn in H3.
    assert (Hagain :
              sync_dexcom_data env rt user_id now1
                (mkWorld (mkDb (users (db w)) rows2) (outbox w))
              = (SyncOk 0, mkWorld (mkDb (users (db w)) rows2) (outbox w))).
    { unfold sync_dexcom_data, bind, get_db, put_db, ret.
      unfold User_query_get in *. cbn [db users glucose_readings outbox].
      rewrite Hu, Hd, Ht. cbv zeta. rewrite Hr. cbn [negb Z.eqb Pos.eqb].
      rewrite (sync_loop_covered rt _ _ _ H6). reflexivity. }
    rewrite Hagain. cbn [fst snd db glucose_readings].
    split; [reflexivity|]. split; [reflexivity|].
    exists new. repeat split; try assumption.
    intros n0 Hn. injection Hn as <-. now rewrite H3.
Qed.

Lemma C2_sync_idempotent_witness :
  sync_dexcom_data (env_with 200 150) rt0 1 t_one world0
  = (SyncOk 1,
     mkWorld (mkDb [alice] [GlucoseReading.mk 1 1 150 t_midnight JNull JNull true])
             []) /\
  sync_dexcom_data (env_with 200 150) rt0 1 (t_one + 60000000)
    (snd (sync_dexcom_data (env_with 200 150) rt0 1 t_one world0))
  = (SyncOk 0,
     snd (sync_dexcom_data (env_with 200 150) rt0 1 t_one world0)).
Proof.
  split; [reflexivity|].
  destruct (C2_sync_idempotent (env_with 200 150) rt0 1
              t_one (t_one + 60000000) world0 eq_refl)
    as (Hw & Hn & _).
  specialize (Hn 1%nat eq_refl).
  destruct (sync_dexcom_data (env_with 200 150) rt0 1
              (t_one + 60000000)
              (snd (sync_dexcom_data (env_with 200 150) rt0 1
                                     t_one world0))) as [r2 w2].
  cbn [fst snd] in Hw, Hn. now rewrite Hw, Hn.
Defined.

(** ** Patient summaries *)

Lemma get_doctor_patients_run rt now w :
  get_doctor_patients rt now w
  = ((map (patient_summary rt (db w) (now - timedelta_days 7))
          (filter (fun u => String.eqb (User.role u) "patient") (users (db w))),
      200), w).
Proof. reflexivity. Qed.

Lemma in_listing rt now w s :
  In s (fst (fst (get_doctor_patients rt now w))) ->
  exists p, In p (users (db w)) /\ User.role p = "patient" /\
            s = patient_summary rt (db w) (now - timedelta_days 7) p.
Proof.
  rewrite get_doctor_patients_run. cbn [fst]. intros H.
  apply in_map_iff in H. destruct H as (p & <- & Hp).
  apply filter_In in Hp. destruct Hp as [Hin Hrole].
  exists p. repeat split; try assumption. now apply String.eqb_eq.
Qed.

(** The three computed fields of a summary, read off the window. *)
Lemma patient_summary_fields rt d since p :
  let readings := readings_since d (User.user_id p) since in
  let values := map GlucoseReading.reading_value readings in
  let s := patient_summary rt d since p in
  Summary.id s = User.user_id p /\
  Summary.readings_count s = List.length readings /\
  Summary.avg_glucose s
  = match readings with
    | [] => None
    | _ :: _ =>
        let avg := computed_mean rt values in
        if (avg =? 0)%float then None else Some (py_round1 avg)
    end /\
  Summary.last_reading s
  = match readings with
    | [] => None
    | r0 :: _ =>
        let v := GlucoseReading.reading_value (last readings r0) in
        if (v =? 0)%float then None else Some (py_round1 v)
    end.
Proof.
  intros readings values s. subst s values. unfold patient_summary, computed_mean.
  fold readings. destruct readings as [|r0 rest].
  - repeat split.
  - cbv zeta. cbn [truthy_num option_map Summary.id Summary.readings_count
                   Summary.avg_glucose Summary.last_reading].
    repeat split.
    + now destruct (_ =? 0)%float.
    + now destruct (_ =? 0)%float.
Qed.

Lemma readings_since_nil d uid since :
  (forall r, In r (glucose_readings d) -> GlucoseReading.user_id r = uid ->
             GlucoseReading.timestamp r < since) ->
  readings_since d uid since = [].
Proof.
  unfold readings_since. induction (glucose_readings d) as [|r rows IH];
    intros H; [reflexivity|].
  cbn [filter].
  destruct (Z.eqb_spec (GlucoseReading.user_id r) uid) as [E|_]; cbn [andb].
  - specialize (H r (or_introl eq_refl) E) as Hlt.
    destruct (Z.leb_spec since (GlucoseReading.timestamp r)); [lia|].
    apply IH. intros r' Hin. apply H. now right.
  - apply IH. intros r' Hin. apply H. now right.
Qed.

(** C5.  A patient of the listing with no reading in the trailing seven days
    is reported with [avg_glucose] and [last_reading] absent and with
    [readings_count] equal to 0. *)
Theorem C5_empty_window_is_null rt now w (s : Summary.t) :
  In s (fst (fst (get_doctor_patients rt now w))) ->
  (forall r, In r (glucose_readings (db w)) ->
             GlucoseReading.user_id r = Summary.id s ->
             GlucoseReading.timestamp r < now - timedelta_days 7) ->
  Summary.avg_glucose s = None /\
  Summary.last_reading s = None /\
  Summary.readings_count s = 0%nat.
Proof.
  intros Hin Hnone.
  destruct (in_listing rt now w s Hin) as (p & _ & _ & ->).
  destruct (patient_summary_fields rt (db w) (now - timedelta_days 7) p)
    as (Hid & Hc & Ha & Hl).
  rewrite Hid in Hnone. rewrite Ha, Hl, Hc.
  now rewrite (readings_since_nil (db w) _ _ Hnone).
Qed.

Lemma C5_empty_window_is_null_witness :
  Summary.avg_glucose (patient_summary rt0 (db world0) (t_one - timedelta_days 7) alice)
  = None /\
  Summary.last_reading (patient_summary rt0 (db world0) (t_one - timedelta_days 7) alice)
  = None /\
  Summary.readings_count
    (patient_summary rt0 (db world0) (t_one - timedelta_days 7) alice) = 0%nat.
Proof.
  apply (C5_empty_window_is_null rt0 t_one world0).
  - left. reflexivity.
  - intros r [].
Defined.

(** ** Rounding to one decimal *)

(** [round(x, 1)] on some floats: ties go to the even tenth of the exact
    binary value, small negatives give minus zero, 100.35 (the float just
    below the decimal) gives 100.3, and the mean of 100, 150 and 120 gives
    123.3. *)
Example py_round1_examples :
  py_round1 0.25 = 0.2%float /\
  py_round1 0.75 = 0.8%float /\
  py_round1 0x1.9166666666666p+6 = 100.3%float /\
  py_round1 (370 / 3) = 123.3%float /\
  py_round1 (-0.04) = neg_zero /\
  py_round1 150 = 150%float /\
  py_round1 infinity = infinity.
Proof.
  repeat split.
Qed.

(** ** Summaries: zero values, averages, the last reading *)

(** C10.  For a patient of the listing with readings in the window, so with
    a positive [readings_count]: [avg_glucose] is absent exactly when the
    mean as the handler computes it, in binary64, is zero, and
    [last_reading] is absent exactly when the value of the last reading in
    storage order is zero. *)
Theorem C10_zero_reported_as_null rt now w (s : Summary.t) r0 rest :
  In s (fst (fst (get_doctor_patients rt now w))) ->
  readings_since (db w) (Summary.id s) (now - timedelta_days 7) = r0 :: rest ->
  (0 < Summary.readings_count s)%nat /\
  ((computed_mean rt (map GlucoseReading.reading_value (r0 :: rest)) =? 0)%float
   = true
   <-> Summary.avg_glucose s = None) /\
  ((GlucoseReading.reading_value (last (r0 :: rest) r0) =? 0)%float = true
   <-> Summary.last_reading s = None).
Proof.
  intros Hin Hr.
  destruct (in_listing rt now w s Hin) as (p & _ & _ & ->).
  destruct (patient_summary_fields rt (db w) (now - timedelta_days 7) p)
    as (Hid & Hc & Ha & Hl).
  rewrite Hid in Hr. rewrite Hr in Hc, Ha, Hl. cbv zeta in Ha, Hl.
  rewrite Hc, Ha, Hl. clear Hc Ha Hl.
  split; [cbn; lia|].
  split.
  - destruct (_ =? 0)%float; split; congruence.
  - destruct (_ =? 0)%float; split; congruence.
Qed.

Lemma C10_zero_reported_as_null_witness :
  (0 < Summary.readings_count
         (patient_summary rt0 (db world_zero) (t_one + minute - timedelta_days 7) alice))%nat /\
  Summary.avg_glucose
    (patient_summary rt0 (db world_zero) (t_one + minute - timedelta_days 7) alice) = None /\
  Summary.last_reading
    (patient_summary rt0 (db world_zero) (t_one + minute - timedelta_days 7) alice) = None.
Proof.
  destruct (C10_zero_reported_as_null rt0 (t_one + minute) world_zero
              (patient_summary rt0 (db world_zero)
                               (t_one + minute - timedelta_days 7) alice)
              (GlucoseReading.mk 1 1 0 t_one JNull JNull false) [])
    as (Hc & Ha & Hl).
  - left. reflexivity.
  - reflexivity.
  - split; [exact Hc|]. split; [apply Ha | apply Hl]; reflexivity.
Defined.

(** The computed mean is the one that counts.  The values 1e16, 1, -1e16
    and -1 cancel in exact arithmetic; added from left to right in binary64
    they give -1, and the listing reports -0.2.  The values 5e-324 and 0
    have a mean that is not zero; in binary64 it underflows to zero and the
    listing reports no average. *)
Example computed_mean_is_binary64 :
  map GlucoseReading.reading_value (glucose_readings (db world_cancelling))
  = [1e16; 1; -1e16; -1]%float /\
  Summary.avg_glucose
    (patient_summary rt0 (db world_cancelling) (t_one - timedelta_days 7) alice)
  = Some (-0.2)%float /\
  map GlucoseReading.reading_value (glucose_readings (db world_underflow))
  = [0x1p-1074; 0]%float /\
  Summary.avg_glucose
    (patient_summary rt0 (db world_underflow) (t_one - timedelta_days 7) alice)
  = None /\
  Summary.readings_count
    (patient_summary rt0 (db world_underflow) (t_one - timedelta_days 7) alice)
  = 2%nat.
Proof.
  repeat split.
Qed.

(** Where the computed mean is not zero, [avg_glucose] is that mean rounded
    to one decimal, and the handler leaves the world, stored values
    included, as it found it. *)
Lemma avg_glucose_is_rounded_computed_mean rt now w (s : Summary.t) r0 rest :
  In s (fst (fst (get_doctor_patients rt now w))) ->
  readings_since (db w) (Summary.id s) (now - timedelta_days 7) = r0 :: rest ->
  let m := computed_mean rt (map GlucoseReading.reading_value (r0 :: rest)) in
  (m =? 0)%float = false ->
  Summary.avg_glucose s = Some (py_round1 m) /\
  snd (get_doctor_patients rt now w) = w.
Proof.
  intros Hin Hr m Hm.
  destruct (in_listing rt now w s Hin) as (p & _ & _ & ->).
  destruct (patient_summary_fields rt (db w) (now - timedelta_days 7) p)
    as (Hid & _ & Ha & _).
  rewrite Hid in Hr. rewrite Hr in Ha. cbv zeta in Ha. fold m in Ha.
  rewrite Hm in Ha. split; [exact Ha|reflexivity].
Qed.

(** The values 100, 150 and 120 are presented as 123.3. *)
Example avg_glucose_of_three_values :
  map GlucoseReading.reading_value
      (readings_since (db world_three) 1 (t_one + 3 * minute - timedelta_days 7))
  = [100; 150; 120]%float /\
  Summary.avg_glucose
    (patient_summary rt0 (db world_three) (t_one + 3 * minute - timedelta_days 7) alice)
  = Some 123.3%float.
Proof.
  split; reflexivity.
Qed.

(** C6, the failing input.  After the single manual entry 0 the window of
    the patient holds one reading, the mean of its values rounds to 0.0, and
    the listing reports [avg_glucose] as absent. *)
Lemma C6_zero_mean_reported_absent :
  map GlucoseReading.reading_value
      (readings_since (db world_zero) 1 (t_one + minute - timedelta_days 7))
  = [0%float] /\
  py_round1 (computed_mean rt0 [0%float]) = 0%float /\
  fst (fst (get_doctor_patients rt0 (t_one + minute) world_zero))
  = [Summary.mk 1 "Alice" "alice@example.org" (Some "+15550100") None None 1].
Proof.
  repeat split.
Qed.

(** C1, the failing input.  The window holds the manual reading of one
    o'clock (100) and then, in storage order, the device reading of midnight
    (150).  The reading with the largest timestamp has value 100; the listing
    reports [last_reading] as 150.0. *)
Lemma C1_last_reading_follows_storage_order :
  readings_since (db world_manual_then_sync) 1
                 (t_one + 2 * minute - timedelta_days 7)
  = [GlucoseReading.mk 1 1 100 t_one JNull JNull false;
     GlucoseReading.mk 2 1 150 t_midnight JNull JNull true] /\
  option_map GlucoseReading.reading_value
             (latest (readings_since (db world_manual_then_sync) 1
                                     (t_one + 2 * minute - timedelta_days 7)))
  = Some 100%float /\
  fst (fst (get_doctor_patients rt0 (t_one + 2 * minute) world_manual_then_sync))
  = [Summary.mk 1 "Alice" "alice@example.org" (Some "+15550100")
                (Some 150%float) (Some 125%float) 2].
Proof.
  repeat split.
Qed.

(** * Further properties of the handlers *)

(** ** Missing values *)

Lemma present_false_iff (data : dict) (key : string) :
  present data key = false <->
  dict_mem data key = false \/ dict_get data key = JNull \/
  dict_get data key = JStr EmptyString \/ dict_get data key = JArr [].
Proof.
  unfold present. destruct (dict_mem data key); cbn.
  - rewrite negb_false_iff. split.
    + destruct (dict_get data key) as [| | | |[|c s]|[|x l]|]; cbn;
        try discriminate; auto.
    + intros [H|[->|[->| ->]]]; try reflexivity. discriminate.
  - split; auto.
Qed.

(** A submission whose [reading_value] is absent, null, the empty string or
    the empty list is answered with status 400 and the list of missing
    fields; nothing is stored and nothing is dispatched. *)
Theorem add_glucose_reading_missing_value
        env rt (identity now : Z) (body : dict) (w : World) :
  dict_mem body "reading_value" = false \/
  dict_get body "reading_value" = JNull \/
  dict_get body "reading_value" = JStr EmptyString \/
  dict_get body "reading_value" = JArr [] ->
  add_glucose_reading env rt identity now body w
  = (api_error (MissingFields ["reading_value"]) 400, w).
Proof.
  intros H. apply present_false_iff in H.
  unfold add_glucose_reading. now rewrite require_json_single, H.
Qed.

Lemma add_glucose_reading_missing_value_witness :
  add_glucose_reading (env_with 200 150) rt0 1 t_one
                      [("notes", JStr "after lunch")] world0
  = (api_error (MissingFields ["reading_value"]) 400, world0).
Proof.
  apply add_glucose_reading_missing_value. left. reflexivity.
Defined.

(** ** What the write paths do to the tables *)

Lemma next_reading_id_fresh (rows : list GlucoseReading.t) :
  Forall (fun r => GlucoseReading.reading_id r < next_reading_id rows) rows.
Proof.
  unfold next_reading_id. induction rows as [|r rows IH]; constructor.
  - cbn [map fold_right]. lia.
  - eapply Forall_impl; [|exact IH]. cbn [map fold_right]. intros r'. lia.
Qed.

Lemma NoDup_ids_snoc (rows : list GlucoseReading.t) (r : GlucoseReading.t) :
  GlucoseReading.reading_id r = next_reading_id rows ->
  NoDup (map GlucoseReading.reading_id rows) ->
  NoDup (map GlucoseReading.reading_id (rows ++ [r])).
Proof.
  intros Hid Hnd. rewrite map_app. cbn.
  rewrite <- (rev_involutive (map _ rows ++ _)).
  apply NoDup_rev. rewrite rev_app_distr. cbn.
  constructor.
  - rewrite <- in_rev. intros Hin. apply in_map_iff in Hin.
    destruct Hin as (r' & Heq & Hin).
    pose proof (next_reading_id_fresh rows) as Hf.
    rewrite Forall_forall in Hf. specialize (Hf r' Hin). lia.
  - now apply NoDup_rev.
Qed.

Lemma flush_NoDup_ids rt pending :
  forall rows rows',
    flush rt rows pending = inr rows' ->
    NoDup (map GlucoseReading.reading_id rows) ->
    NoDup (map GlucoseReading.reading_id rows').
Proof.
  induction pending as [|p rest IH]; intros rows rows' Hf Hnd; cbn in Hf.
  - now injection Hf as <-.
  - destruct (insert_reading rt rows p) as [e|row] eqn:Ei; [discriminate|].
    apply (IH _ _ Hf). apply NoDup_ids_snoc; [|assumption].
    exact (proj1 (insert_reading_id _ _ _ _ Ei)).
Qed.

Section SyncRows.
Variable rt : Runtime.

Lemma sync_loop_NoDup_ids uid egvs :
  forall rows pending n s' n' rows2,
    sync_loop rt uid egvs (rows, pending) n = inr (s', n') ->
    flush rt (fst s') (snd s') = inr rows2 ->
    NoDup (map GlucoseReading.reading_id rows) ->
    NoDup (map GlucoseReading.reading_id rows2).
Proof.
  induction egvs as [|e rest IH]; intros rows pending n s' n' rows2 Hl Hf Hnd.
  - cbn in Hl. injection Hl as <- <-. exact (flush_NoDup_ids _ _ _ _ Hf Hnd).
  - cbn [sync_loop] in Hl.
    destruct (systemTime e) as [[|c st]|]; try exact (IH _ _ _ _ _ _ Hl Hf Hnd).
    destruct (isoparse rt (String c st)) as [ts|]; [|discriminate].
    cbn [fst snd] in Hl.
    destruct (flush rt rows pending) as [err|rows1] eqn:Efl; [discriminate|].
    pose proof (flush_NoDup_ids _ _ _ _ Efl Hnd) as Hnd1.
    destruct (existsb (same_key uid ts) rows1);
      exact (IH _ _ _ _ _ _ Hl Hf Hnd1).
Qed.

Lemma copied_from_cons e egvs r :
  copied_from rt egvs r -> copied_from rt (e :: egvs) r.
Proof.
  intros (e' & c & st & Hin & H). exists e', c, st. split; [now right|exact H].
Qed.

Lemma sync_loop_provenance uid egvs :
  forall rows pending n s' n' rows2,
    sync_loop rt uid egvs (rows, pending) n = inr (s', n') ->
    flush rt (fst s') (snd s') = inr rows2 ->
    exists rows1 new,
      flush rt rows pending = inr rows1 /\
      rows2 = rows1 ++ new /\
      Forall (copied_from rt egvs) new.
Proof.
  induction egvs as [|e rest IH]; intros rows pending n s' n' rows2 Hl Hf.
  - cbn in Hl. injection Hl as <- <-. cbn [fst snd] in Hf.
    exists rows2, []. rewrite app_nil_r. repeat split; [assumption|constructor].
  - cbn [sync_loop] in Hl.
    assert (Hskip :
              forall s0 n0,
                sync_loop rt uid rest s0 n0 = inr (s', n') ->
                exists rows1 new,
                  flush rt (fst s0) (snd s0) = inr rows1 /\
                  rows2 = rows1 ++ new /\
                  Forall (copied_from rt (e :: rest)) new).
    { intros [rows0 pending0] n0 Hl0.
      destruct (IH _ _ _ _ _ _ Hl0 Hf) as (rows1 & new & H1 & H2 & H3).
      exists rows1, new. repeat split; try assumption.
      eapply Forall_impl; [|exact H3]. intros r. apply copied_from_cons. }
    destruct (systemTime e) as [[|c st]|] eqn:Est;
      try exact (Hskip (rows, pending) n Hl).
    destruct (isoparse rt (String c st)) as [ts|] eqn:Eiso; [|discriminate].
    cbn [fst snd] in Hl.
    destruct (flush rt rows pending) as [err|rows1] eqn:Efl; [discriminate|].
    destruct (existsb (same_key uid ts) rows1).
    + destruct (Hskip _ _ Hl) as (rows1' & new & H1 & H2 & H3).
      cbn in H1. injection H1 as <-. now exists rows1, new.
    + destruct (Hskip _ _ Hl) as (rows1' & new & H1 & H2 & H3).
      cbn [fst snd flush] in H1.
      destruct (insert_reading rt rows1 _) as [err|row] eqn:Ei; [discriminate|].
      injection H1 as <-.
      exists rows1, (row :: new). split; [reflexivity|].
      split; [now rewrite H2, <- app_assoc|].
      constructor; [|assumption].
      apply insert_reading_inr in Ei.
      destruct Ei as (v & context & notes & Hv & _ & _ & ->).
      exists e, c, st. cbn. repeat split; try assumption. now left.
Qed.

Lemma sync_loop_count uid egvs :
  forall s n s' n',
    sync_loop rt uid egvs s n = inr (s', n') ->
    (n' <= n + List.length egvs)%nat.
Proof.
  induction egvs as [|e rest IH]; intros s n s' n' Hl.
  - cbn in Hl. injection Hl as _ <-. cbn. lia.
  - cbn [sync_loop] in Hl. cbn [List.length].
    destruct (systemTime e) as [[|c st]|];
      try (specialize (IH _ _ _ _ Hl); lia).
    destruct (isoparse rt (String c st)) as [ts|]; [|discriminate].
    destruct (flush rt (fst s) (snd s)) as [err|rows1]; [discriminate|].
    destruct (existsb (same_key uid ts) rows1);
      specialize (IH _ _ _ _ Hl); lia.
Qed.
End SyncRows.

(** ** Dexcom sync: all or nothing, completeness, provenance *)

(** A sync call that fails leaves the world exactly as it was, wherever the
    failure occurs: lookup, token, request, status, decoding, a timestamp
    that does not parse or a row the database refuses after other samples
    were already added.  A call that succeeds leaves [users] and the
    dispatcher log alone and only appends rows, as many as it reports. *)
Theorem sync_all_or_nothing env rt (user_id now : Z) (w : World) :
  match sync_dexcom_data env rt user_id now w with
  | (SyncErr _, w') => w' = w
  | (SyncOk n, w') =>
      users (db w') = users (db w) /\ outbox w' = outbox w /\
      exists new,
        glucose_readings (db w') = glucose_readings (db w) ++ new /\
        List.length new = n
  end.
Proof.
  destruct (sync_dexcom_data_cases env rt user_id now w)
    as [[err ->] | (u & data & [rows' pending'] & n & rows2
                      & _ & _ & _ & _ & Hl & Hf & ->)];
    [reflexivity|].
  destruct (sync_loop_inserts rt user_id _ _ _ _ _ _ _ Hl Hf)
    as (rows1 & new & H1 & H2 & H3 & _).
  cbn in H1. injection H1 as <-. cbn in H3.
  cbn [db users outbox glucose_readings].
  repeat split. exists new. now split.
Qed.

(** What a successful sync call has seen and done, in one statement. *)
Lemma sync_dexcom_data_ok env rt uid now w n w' :
  sync_dexcom_data env rt uid now w = (SyncOk n, w') ->
  exists data new,
    requests_get env (now - timedelta_hours 24) now = HttpResponse 200 (Some data) /\
    w' = mkWorld (mkDb (users (db w)) (glucose_readings (db w) ++ new)) (outbox w) /\
    n = List.length new /\
    (n <= List.length (match data with Some l => l | None => [] end))%nat /\
    covered rt uid (glucose_readings (db w'))
            (match data with Some l => l | None => [] end) /\
    Forall (copied_from rt (match data with Some l => l | None => [] end)) new /\
    Forall (fun r => GlucoseReading.user_id r = uid /\
                     GlucoseReading.is_synced r = true) new /\
    (NoDup (map GlucoseReading.reading_id (glucose_readings (db w))) ->
     NoDup (map GlucoseReading.reading_id (glucose_readings (db w')))).
Proof.
  intros H.
  destruct (sync_dexcom_data_cases env rt uid now w)
    as [[err E] | (u & data & [rows' pending'] & n0 & rows2
                     & _ & _ & _ & Hr & Hl & Hf & E)];
    rewrite E in H; [discriminate|].
  injection H as <- <-.
  destruct (sync_loop_inserts rt uid _ _ _ _ _ _ _ Hl Hf)
    as (rows1 & new & H1 & H2 & H3 & _ & H5 & H6).
  cbn in H1. injection H1 as <-. cbn in H3.
  destruct (@sync_loop_provenance rt uid _ _ _ _ _ _ _ Hl Hf)
    as (rows1' & new' & P1 & P2 & P3).
  cbn in P1. injection P1 as <-.
  assert (new' = new) by (apply (app_inv_head (glucose_readings (db w))); congruence).
  subst new'.
  pose proof (@sync_loop_count rt uid _ _ _ _ _ Hl) as Hc. cbn in Hc.
  pose proof (@sync_loop_NoDup_ids rt uid _ _ _ _ _ _ _ Hl Hf) as Hnd.
  exists data, new. cbn [db glucose_readings]. subst rows2.
  repeat split; try assumption.
  eapply Forall_impl; [|exact H5]. intros r (Hu & Hs & _). now split.
Qed.

(** After a successful sync every sample of the answer that carries a time
    is in the timeline: its time parses and the user has a row with exactly
    that timestamp, whether the call stored it or found it there. *)
Theorem sync_stores_every_timed_sample
        env rt (user_id now : Z) (w w' : World) (n : nat)
        (status_code : Z) (egvs : list egv) :
  sync_dexcom_data env rt user_id now w = (SyncOk n, w') ->
  requests_get env (now - timedelta_hours 24) now
  = HttpResponse status_code (Some (Some egvs)) ->
  forall e c st,
    In e egvs -> systemTime e = Some (String c st) ->
    exists ts r,
      isoparse rt (String c st) = Some ts /\
      In r (glucose_readings (db w')) /\
      GlucoseReading.user_id r = user_id /\
      GlucoseReading.timestamp r = ts.
Proof.
  intros Hs Hr e c st Hin Hst.
  destruct (sync_dexcom_data_ok _ _ _ _ _ _ _ Hs)
    as (data & new & Hr' & _ & _ & _ & Hcov & _).
  rewrite Hr in Hr'. injection Hr' as _ <-.
  destruct (Hcov e c st Hin Hst) as (ts & Hp & Hex).
  apply existsb_exists in Hex. destruct Hex as (r & Hrin & Hk).
  unfold same_key in Hk. apply andb_true_iff in Hk. destruct Hk as [Hu Ht].
  exists ts, r. repeat split; try assumption; now apply Z.eqb_eq.
Qed.

Lemma sync_stores_every_timed_sample_witness :
  exists r,
    In r (glucose_readings
            (db (snd (sync_dexcom_data (env_with 200 150) rt0 1
                                       t_one world0)))) /\
    GlucoseReading.user_id r = 1 /\
    GlucoseReading.timestamp r = t_midnight.
Proof.
  destruct (@sync_stores_every_timed_sample
              (env_with 200 150) rt0 1 t_one world0
              (snd (sync_dexcom_data (env_with 200 150) rt0 1
                                     t_one world0))
              1%nat 200 [mkEgv (Some "2024-01-01T00:00:00Z") (JInt 150)]
              eq_refl eq_refl
              (mkEgv (Some "2024-01-01T00:00:00Z") (JInt 150))
              _ _ (or_introl eq_refl) eq_refl)
    as (ts & r & Hp & Hin & Hu & Ht).
  exists r. repeat split; try assumption.
  cbn in Hp. injection Hp as <-. exact Ht.
Defined.

(** The rows a successful sync appends are copies of fetched samples: each
    is a device-sourced row of the calling user whose timestamp and value
    are those of one sample of the answer; and [readings_added], their
    number, is at most the number of samples. *)
Theorem sync_rows_copied_from_samples
        env rt (user_id now : Z) (w w' : World) (n : nat)
        (status_code : Z) (egvs : list egv) :
  sync_dexcom_data env rt user_id now w = (SyncOk n, w') ->
  requests_get env (now - timedelta_hours 24) now
  = HttpResponse status_code (Some (Some egvs)) ->
  exists new,
    glucose_readings (db w') = glucose_readings (db w) ++ new /\
    List.length new = n /\ (n <= List.length egvs)%nat /\
    Forall (fun r => GlucoseReading.user_id r = user_id /\
                     GlucoseReading.is_synced r = true /\
                     copied_from rt egvs r) new.
Proof.
  intros Hs Hr.
  destruct (sync_dexcom_data_ok _ _ _ _ _ _ _ Hs)
    as (data & new & Hr' & -> & Hn & Hle & _ & Hcp & Hus & _).
  rewrite Hr in Hr'. injection Hr' as _ <-.
  exists new. cbn [db glucose_readings]. repeat split; try easy.
  rewrite Forall_forall in *. intros r Hin.
  destruct (Hus r Hin). repeat split; auto.
Qed.

Lemma sync_rows_copied_from_samples_witness :
  exists new,
    glucose_readings
      (db (snd (sync_dexcom_data (env_with 200 150) rt0 1
                                 t_one world0)))
    = glucose_readings (db world0) ++ new /\
    List.length new = 1%nat.
Proof.
  destruct (@sync_rows_copied_from_samples
              (env_with 200 150) rt0 1 t_one world0
              (snd (sync_dexcom_data (env_with 200 150) rt0 1
                                     t_one world0))
              1%nat 200 [mkEgv (Some "2024-01-01T00:00:00Z") (JInt 150)]
              eq_refl eq_refl)
    as (new & H1 & H2 & _).
  now exists new.
Defined.

(** One sample whose time does not parse rejects the whole batch: the call
    fails and nothing is stored, not even the valid samples before it. *)
Theorem sync_bad_timestamp_rejects_batch
        env rt (user_id now : Z) (w : World)
        (status_code : Z) (egvs : list egv) e c st :
  requests_get env (now - timedelta_hours 24) now
  = HttpResponse status_code (Some (Some egvs)) ->
  In e egvs -> systemTime e = Some (String c st) ->
  isoparse rt (String c st) = None ->
  exists err, sync_dexcom_data env rt user_id now w = (SyncErr err, w).
Proof.
  intros Hr Hin Hst Hp.
  destruct (sync_dexcom_data_cases env rt user_id now w)
    as [[err E] | (u & data & s & n & rows2 & _ & _ & _ & _ & _ & _ & E)].
  - now exists err.
  - destruct (sync_dexcom_data_ok _ _ _ _ _ _ _ E)
      as (data' & new & Hr' & _ & _ & _ & Hcov & _).
    rewrite Hr in Hr'. injection Hr' as _ <-.
    destruct (Hcov e c st Hin Hst) as (ts & Hts & _). congruence.
Qed.

Lemma sync_bad_timestamp_rejects_batch_witness :
  exists err,
    sync_dexcom_data (env_samples samples_bad_time) rt0 1 t_one world0
    = (SyncErr err, world0).
Proof.
  apply (@sync_bad_timestamp_rejects_batch
           (env_samples samples_bad_time) rt0 1 t_one world0
           200 samples_bad_time (mkEgv (Some "yesterday") (JInt 90)) _ _
           eq_refl (or_intror (or_introl eq_refl)) eq_refl eq_refl).
Defined.

(** A sample whose value is null or absent and whose timestamp is not stored yet rejects the
    whole batch, unless another sample of the batch supplies a value for the
    same timestamp: the row would violate the non-null column. *)
Theorem sync_null_value_rejects_batch
        env rt (user_id now : Z) (w : World)
        (status_code : Z) (egvs : list egv) e c st ts :
  requests_get env (now - timedelta_hours 24) now
  = HttpResponse status_code (Some (Some egvs)) ->
  In e egvs -> systemTime e = Some (String c st) ->
  isoparse rt (String c st) = Some ts ->
  existsb (same_key user_id ts) (glucose_readings (db w)) = false ->
  (forall e' c' st',
      In e' egvs -> systemTime e' = Some (String c' st') ->
      isoparse rt (String c' st') = Some ts -> value e' = JNull) ->
  exists err, sync_dexcom_data env rt user_id now w = (SyncErr err, w).
Proof.
  intros Hr Hin Hst Hp Hnew Hnull.
  destruct (sync_dexcom_data_cases env rt user_id now w)
    as [[err E] | (u & data & s & n & rows2 & _ & _ & _ & _ & _ & _ & E)].
  - now exists err.
  - exfalso.
    destruct (sync_dexcom_data_ok _ _ _ _ _ _ _ E)
      as (data' & new & Hr' & Hw & _ & _ & Hcov & Hcp & _).
    rewrite Hr in Hr'. injection Hr' as _ <-. injection Hw as ->.
    destruct (Hcov e c st Hin Hst) as (ts' & Hts & Hex).
    assert (ts' = ts) by congruence. subst ts'.
    cbn [db glucose_readings] in Hex. rewrite existsb_app, Hnew in Hex.
    cbn [orb] in Hex. apply existsb_exists in Hex.
    destruct Hex as (r & Hrin & Hk).
    rewrite Forall_forall in Hcp.
    destruct (Hcp r Hrin) as (e' & c' & st' & Hin' & Hst' & Hp' & Hv').
    unfold same_key in Hk. apply andb_true_iff in Hk. destruct Hk as [_ Ht].
    apply Z.eqb_eq in Ht. rewrite Ht in Hp'.
    rewrite (Hnull e' c' st' Hin' Hst' Hp') in Hv'. discriminate.
Qed.

Lemma sync_null_value_rejects_batch_witness :
  exists err,
    sync_dexcom_data (env_samples samples_null_value) rt0 1 t_one world0
    = (SyncErr err, world0).
Proof.
  apply (@sync_null_value_rejects_batch
           (env_samples samples_null_value) rt0 1 t_one world0
           200 samples_null_value (mkEgv (Some "2024-01-01T00:00:00Z") JNull)
           _ _ t_midnight eq_refl (or_introl eq_refl) eq_refl eq_refl eq_refl).
  intros e' c' st' [<-|[]] _ _. reflexivity.
Defined.

(** Unless the user exists, has a Dexcom id and an access token is
    configured, the route answers 400 with "not connected" or "missing
    token" and touches nothing, whatever the provider would answer. *)
Theorem sync_requires_link_and_token env rt (identity now : Z) (w : World) :
  (forall u, User_query_get (db w) identity = Some u ->
             truthy (User.dexcom_id u) = true ->
             truthy (DEXCOM_ACCESS_TOKEN env) = false) ->
  exists err,
    (err = DexcomNotConnected \/ err = MissingDexcomToken) /\
    sync_dexcom env rt identity now w = ((SyncErr err, 400), w).
Proof.
  intros H. unfold sync_dexcom, sync_dexcom_data, bind, get_db, ret.
  destruct (User_query_get (db w) identity) as [u|];
    [|exists DexcomNotConnected; auto].
  destruct (truthy (User.dexcom_id u)) eqn:Hd; cbn [negb];
    [|exists DexcomNotConnected; auto].
  rewrite (H u eq_refl Hd). cbn [negb].
  exists MissingDexcomToken. auto.
Qed.

Lemma sync_requires_link_and_token_witness :
  exists err,
    (err = DexcomNotConnected \/ err = MissingDexcomToken) /\
    sync_dexcom (env_with 200 150) rt0 2 t_one world_clinic
    = ((SyncErr err, 400), world_clinic).
Proof.
  apply sync_requires_link_and_token.
  intros u Hu Hd. cbn in Hu. injection Hu as <-. discriminate Hd.
Defined.

(** ** Reading ids stay unique *)

(** Both write paths keep the primary key unique: if no two stored readings
    share an id before a manual submission or a sync, whatever its outcome,
    none do after it. *)
Theorem reading_ids_stay_unique
        env rt (identity now : Z) (body : dict) (w : World) :
  NoDup (map GlucoseReading.reading_id (glucose_readings (db w))) ->
  NoDup (map GlucoseReading.reading_id
             (glucose_readings
                (db (snd (add_glucose_reading env rt identity now body w)))))
  /\
  NoDup (map GlucoseReading.reading_id
             (glucose_readings
                (db (snd (sync_dexcom_data env rt identity now w))))).
Proof.
  intros Hnd. split.
  - destruct (add_glucose_reading_db env rt identity now body w)
      as (_ & [-> | (x & row & _ & Hi & ->)]); [assumption|].
    apply NoDup_ids_snoc; [|assumption].
    exact (proj1 (insert_reading_id _ _ _ _ Hi)).
  - destruct (sync_dexcom_data env rt identity now w) as [[n|err] w'] eqn:E.
    + destruct (sync_dexcom_data_ok _ _ _ _ _ _ _ E) as (_ & _ & _ & _ & _ & _ & _ & _ & _ & H).
      cbn [snd]. now apply H.
    + destruct (sync_dexcom_data_cases env rt identity now w)
        as [[err' E'] | (u & data & s & n & rows2 & _ & _ & _ & _ & _ & _ & E')];
        rewrite E' in E; [|discriminate].
      injection E as _ <-. exact Hnd.
Qed.

Lemma reading_ids_stay_unique_witness :
  NoDup (map GlucoseReading.reading_id
             (glucose_readings
                (db (snd (add_glucose_reading (env_with 200 150) rt0 1
                            (t_one + 2 * minute) (manual_body (JInt 90))
                            world_manual_then_sync))))).
Proof.
  apply (@reading_ids_stay_unique (env_with 200 150) rt0 1 (t_one + 2 * minute) (manual_body (JInt 90))
           world_manual_then_sync).
  repeat constructor; cbn; intuition discriminate.
Defined.

(** ** Summaries and the write paths *)

Lemma readings_since_app d d' uid since new :
  glucose_readings d' = glucose_readings d ++ new ->
  readings_since d' uid since
  = readings_since d uid since
    ++ filter (fun r => (GlucoseReading.user_id r =? uid)
                        && (since <=? GlucoseReading.timestamp r)) new.
Proof.
  intros H. unfold readings_since. now rewrite H, filter_app.
Qed.

Lemma readings_since_other_user d d' uid since new :
  glucose_readings d' = glucose_readings d ++ new ->
  Forall (fun r => GlucoseReading.user_id r <> uid) new ->
  readings_since d' uid since = readings_since d uid since.
Proof.
  intros H Hall. rewrite (readings_since_app d d' uid since new H). clear H.
  rewrite <- app_nil_r. f_equal.
  induction Hall as [|r new Hr _ IH]; [reflexivity|]. cbn.
  destruct (Z.eqb_spec (GlucoseReading.user_id r) uid); [contradiction|exact IH].
Qed.

Lemma patient_summary_ext rt d d' since p :
  readings_since d' (User.user_id p) since
  = readings_since d (User.user_id p) since ->
  patient_summary rt d' since p = patient_summary rt d since p.
Proof.
  intros H. unfold patient_summary. now rewrite H.
Qed.

(** Writes under one identity do not change the summary of any other user:
    neither a manual submission nor a sync, whatever their outcome. *)
Theorem summary_unaffected_by_other_users
        env rt (identity now since : Z) (body : dict)
        (w : World) (p : User.t) :
  identity <> User.user_id p ->
  patient_summary rt
    (db (snd (add_glucose_reading env rt identity now body w))) since p
  = patient_summary rt (db w) since p /\
  patient_summary rt
    (db (snd (sync_dexcom_data env rt identity now w))) since p
  = patient_summary rt (db w) since p.
Proof.
  intros Hne. split; apply patient_summary_ext.
  - destruct (add_glucose_reading_db env rt identity now body w)
      as (_ & [H | (x & row & _ & Hi & H)]).
    + now rewrite H.
    + apply (readings_since_other_user _ _ _ _ _ H).
      constructor; [|constructor].
      destruct (insert_reading_id _ _ _ _ Hi) as (_ & Hu & _).
      cbn in Hu. congruence.
  - destruct (sync_dexcom_data_cases env rt identity now w)
      as [[err ->] | (u & data & [rows' pending'] & n & rows2
                        & _ & _ & _ & _ & Hl & Hf & ->)];
      [reflexivity|].
    destruct (sync_loop_inserts rt identity _ _ _ _ _ _ _ Hl Hf)
      as (rows1 & new & H1 & H2 & _ & _ & H5 & _).
    cbn in H1. injection H1 as <-. cbn [snd db].
    apply (readings_since_other_user (db w) _ _ _ new); [exact H2|].
    eapply Forall_impl; [|exact H5]. intros r (Hu & _). congruence.
Qed.

Lemma summary_unaffected_by_other_users_witness :
  patient_summary rt0
    (db (snd (add_glucose_reading (env_with 200 150) rt0 1 t_one
                                  (manual_body (JInt 55)) world_clinic)))
    (t_one - timedelta_days 7) bob
  = patient_summary rt0 (db world_clinic) (t_one - timedelta_days 7) bob.
Proof.
  apply (summary_unaffected_by_other_users
           (env_with 200 150) rt0
           1 t_one (t_one - timedelta_days 7) (manual_body (JInt 55)) world_clinic bob).
  discriminate.
Defined.

(** A submission answered with "created" has stored the row that the
    insert of the submitted object gives, and the id in the answer is the
    id of that row. *)
Lemma add_glucose_reading_created env rt identity now body w rid code :
  fst (add_glucose_reading env rt identity now body w) = ReadingCreated rid code ->
  exists x row,
    present body "reading_value" = true /\
    py_float rt (dict_get body "reading_value") = inr x /\
    insert_reading rt (glucose_readings (db w)) (submitted identity now body x)
    = inr row /\
    GlucoseReading.reading_id row = rid /\ code = 201 /\
    db (snd (add_glucose_reading env rt identity now body w))
    = mkDb (users (db w)) (glucose_readings (db w) ++ [row]).
Proof.
  intros H.
  destruct (add_glucose_reading_cases env rt identity now body w)
    as [(msg & c & E & _) | (x & row & Hp & Hf & Hi & E)].
  - rewrite E in H. discriminate.
  - exists x, row. cbv zeta in E. rewrite E in *.
    destruct (User_query_get (db w) identity); cbn [fst snd db] in *.
    + injection H as <- <-. now repeat split.
    + destruct (classify (GlucoseReading.reading_value row)); try discriminate.
      injection H as <- <-. now repeat split.
Qed.

Lemma last_snoc {A} (l : list A) (x d : A) : last (l ++ [x]) d = x.
Proof.
  induction l as [|y l IH]; [reflexivity|].
  cbn [app]. destruct (l ++ [x]) eqn:E.
  - now destruct l.
  - cbn [last]. cbn [last] in IH. exact IH.
Qed.

(** A manual entry shows up in the listing.  After a submission by a
    patient that was answered with status 201, made at a time inside the
    window, the patient's summary counts one reading more, and
    [last_reading] is the submitted value rounded to one decimal, or absent
    when that value is zero. *)
Theorem manual_entry_appears_in_listing
        env rt (now1 now2 : Z) (body : dict) (w : World)
        (x : float) (u : User.t) (rid : Z) :
  py_float rt (dict_get body "reading_value") = inr x ->
  fst (add_glucose_reading env rt (User.user_id u) now1 body w)
  = ReadingCreated rid 201 ->
  In u (users (db w)) -> User.role u = "patient" ->
  now2 - timedelta_days 7 <= now1 ->
  let w1 := snd (add_glucose_reading env rt (User.user_id u) now1 body w) in
  let before := patient_summary rt (db w) (now2 - timedelta_days 7) u in
  let after := patient_summary rt (db w1) (now2 - timedelta_days 7) u in
  In after (fst (fst (get_doctor_patients rt now2 w1))) /\
  Summary.readings_count after = S (Summary.readings_count before) /\
  Summary.last_reading after
  = (if (x =? 0)%float then None else Some (py_round1 x)).
Proof.
  intros Hf Hok Hin Hrole Hwin w1 before after.
  destruct (add_glucose_reading_created _ _ _ _ _ _ _ _ Hok)
    as (x' & row & _ & Hf' & Hi & _ & _ & Hdb).
  assert (x' = x) by congruence. subst x'.
  fold w1 in Hdb.
  pose proof (insert_manual_value _ _ _ _ _ _ _ _ Hi) as Hv.
  destruct (insert_reading_id _ _ _ _ Hi) as (_ & Hru & Hrt & _).
  cbn in Hru, Hrt.
  assert (Hrs : readings_since (db w1) (User.user_id u) (now2 - timedelta_days 7)
                = readings_since (db w) (User.user_id u) (now2 - timedelta_days 7)
                  ++ [row]).
  { erewrite (readings_since_app (db w) (db w1));
      [|rewrite Hdb; reflexivity].
    f_equal. cbn [filter]. rewrite Hru, Hrt, Z.eqb_refl. cbn [andb].
    apply Z.leb_le in Hwin. now rewrite Hwin. }
  split; [|split].
  - rewrite get_doctor_patients_run. cbn [fst]. apply in_map.
    apply filter_In. split.
    + rewrite Hdb. exact Hin.
    + rewrite Hrole. reflexivity.
  - destruct (patient_summary_fields rt (db w1) (now2 - timedelta_days 7) u)
      as (_ & Hc & _).
    destruct (patient_summary_fields rt (db w) (now2 - timedelta_days 7) u)
      as (_ & Hc0 & _).
    subst before after. rewrite Hc, Hc0, Hrs, length_app. cbn. lia.
  - destruct (patient_summary_fields rt (db w1) (now2 - timedelta_days 7) u)
      as (_ & _ & _ & Hl).
    subst after. rewrite Hl, Hrs.
    assert (Hlast :
              forall r0 rest,
                GlucoseReading.reading_value (last ((r0 :: rest) ++ [row]) r0)
                = GlucoseReading.reading_value row).
    { intros r0 rest. now rewrite last_snoc. }
    assert (Hgoal : (if (GlucoseReading.reading_value row =? 0)%float
                     then None
                     else Some (py_round1 (GlucoseReading.reading_value row)))
                    = (if (x =? 0)%float then None else Some (py_round1 x))).
    { rewrite (sqlite_real_eqb_zero _ _ Hv).
      destruct (x =? 0)%float eqn:E; [reflexivity|].
      now rewrite (sqlite_real_nonzero _ _ Hv E). }
    destruct (readings_since (db w) (User.user_id u) (now2 - timedelta_days 7))
      as [|r0 rest].
    + exact Hgoal.
    + cbn [app]. cbv zeta.
      change (r0 :: rest ++ [row]) with ((r0 :: rest) ++ [row]).
      rewrite last_snoc. exact Hgoal.
Qed.

Lemma manual_entry_appears_in_listing_witness :
  Summary.readings_count
    (patient_summary rt0
       (db (snd (add_glucose_reading (env_with 200 150) rt0 1
                   (t_one + 2 * minute) (manual_body (JInt 90)) world_manual_then_sync)))
       (t_one + 3 * minute - timedelta_days 7) alice) = 3%nat /\
  Summary.last_reading
    (patient_summary rt0
       (db (snd (add_glucose_reading (env_with 200 150) rt0 1
                   (t_one + 2 * minute) (manual_body (JInt 90)) world_manual_then_sync)))
       (t_one + 3 * minute - timedelta_days 7) alice) = Some 90%float.
Proof.
  destruct (manual_entry_appears_in_listing
              (env_with 200 150) rt0 (t_one + 2 * minute)
              (t_one + 3 * minute) (manual_body (JInt 90)) world_manual_then_sync
              90 alice 3 eq_refl eq_refl (or_introl eq_refl) eq_refl)
    as (_ & Hc & Hl).
  - cbv. discriminate.
  - split; [exact Hc | exact Hl].
Defined.

Lemma last_is_max_when_sorted (l : list GlucoseReading.t) :
  StronglySorted (fun a b => GlucoseReading.timestamp a <= GlucoseReading.timestamp b) l ->
  forall d r, In r l ->
    GlucoseReading.timestamp r <= GlucoseReading.timestamp (last l d).
Proof.
  induction 1 as [|a l Hs IH Hall]; intros d r Hin; [contradiction|].
  destruct l as [|b l'].
  - destruct Hin as [<-|[]]. cbn. lia.
  - change (last (a :: b :: l') d) with (last (b :: l') d).
    destruct Hin as [<-|Hin]; [|now apply IH].
    rewrite Forall_forall in Hall.
    assert (Hb : GlucoseReading.timestamp a <= GlucoseReading.timestamp b)
      by (apply Hall; now left).
    specialize (IH d b (or_introl eq_refl)). lia.
Qed.

(** When the readings of the window are stored in chronological order, as
    they are while only manual entries are made, the reading the listing
    takes for [last_reading] is one with the largest timestamp, and its
    rounded value is reported unless it is zero. *)
Theorem last_reading_latest_when_chronological rt now w (s : Summary.t) r0 rest :
  In s (fst (fst (get_doctor_patients rt now w))) ->
  readings_since (db w) (Summary.id s) (now - timedelta_days 7) = r0 :: rest ->
  StronglySorted (fun a b => GlucoseReading.timestamp a <= GlucoseReading.timestamp b)
                 (r0 :: rest) ->
  let m := last (r0 :: rest) r0 in
  (forall r, In r (r0 :: rest) ->
             GlucoseReading.timestamp r <= GlucoseReading.timestamp m) /\
  ((GlucoseReading.reading_value m =? 0)%float = false ->
   Summary.last_reading s = Some (py_round1 (GlucoseReading.reading_value m))).
Proof.
  intros Hin Hr Hs m. split.
  - intros r. now apply last_is_max_when_sorted.
  - intros Hnz.
    destruct (in_listing rt now w s Hin) as (p & _ & _ & ->).
    destruct (patient_summary_fields rt (db w) (now - timedelta_days 7) p)
      as (Hid & _ & _ & Hl).
    rewrite Hid in Hr. rewrite Hl, Hr. cbv zeta. fold m.
    now rewrite Hnz.
Qed.

Lemma last_reading_latest_when_chronological_witness :
  Summary.last_reading
    (patient_summary rt0 (db world_three) (t_one + 3 * minute - timedelta_days 7) alice)
  = Some 120%float.
Proof.
  destruct (last_reading_latest_when_chronological
              rt0 (t_one + 3 * minute) world_three
              (patient_summary rt0 (db world_three)
                               (t_one + 3 * minute - timedelta_days 7) alice)
              (GlucoseReading.mk 1 1 100 t_one JNull JNull false)
              [GlucoseReading.mk 2 1 150 (t_one + minute) JNull JNull false;
               GlucoseReading.mk 3 1 120 (t_one + 2 * minute) JNull JNull false])
    as (_ & Hl).
  - left. reflexivity.
  - reflexivity.
  - repeat constructor; cbv; discriminate.
  - apply Hl. reflexivity.
Defined.

(** ** Ordered queries *)

Lemma In_firstn_aux {A : Type} (n : nat) (l : list A) (x : A) :
  In x (firstn n l) -> In x l.
Proof.
  intros H. rewrite <- (firstn_skipn n l). apply in_or_app. now left.
Qed.

Section OrderBy.
Context {A : Type} (key : A -> Z).

Lemma insert_desc_perm (x : A) (l : list A) :
  Permutation (insert_desc key x l) (x :: l).
Proof.
  induction l as [|y l IH]; cbn; [reflexivity|].
  destruct (key y <=? key x); [reflexivity|].
  rewrite IH. apply perm_swap.
Qed.

Lemma order_by_desc_perm (l : list A) : Permutation (order_by_desc key l) l.
Proof.
  induction l as [|x l IH]; cbn; [reflexivity|].
  unfold order_by_desc in *. now rewrite insert_desc_perm, IH.
Qed.

Lemma order_by_desc_In (x : A) (l : list A) :
  In x (order_by_desc key l) <-> In x l.
Proof.
  split; apply Permutation_in;
    [apply order_by_desc_perm | symmetry; apply order_by_desc_perm].
Qed.

Lemma insert_desc_sorted (x : A) (l : list A) :
  StronglySorted (fun a b => key b <= key a) l ->
  StronglySorted (fun a b => key b <= key a) (insert_desc key x l).
Proof.
  induction 1 as [|y l Hs IH Hall]; cbn.
  - repeat constructor.
  - destruct (Z.leb_spec (key y) (key x)) as [Hle|Hlt].
    + constructor; [now constructor|].
      constructor; [exact Hle|].
      eapply Forall_impl; [|exact Hall]. cbn. intros z Hz. lia.
    + constructor; [exact IH|].
      eapply Permutation_Forall; [symmetry; apply insert_desc_perm|].
      constructor; [lia|exact Hall].
Qed.

Lemma order_by_desc_sorted (l : list A) :
  StronglySorted (fun a b => key b <= key a) (order_by_desc key l).
Proof.
  induction l as [|x l IH]; cbn; [constructor|].
  now apply insert_desc_sorted.
Qed.

Lemma sorted_app_le (l1 l2 : list A) :
  StronglySorted (fun a b => key b <= key a) (l1 ++ l2) ->
  forall a b, In a l1 -> In b l2 -> key b <= key a.
Proof.
  induction l1 as [|x l1 IH]; intros Hs a b Ha Hb; [contradiction|].
  cbn in Hs. apply StronglySorted_inv in Hs. destruct Hs as [Hs Hall].
  destruct Ha as [<-|Ha]; [|now apply (IH Hs a b)].
  rewrite Forall_forall in Hall. apply Hall. apply in_or_app. now right.
Qed.

(** The first [n] rows of an ordered query: at most [n], taken from the
    rows queried, newest first, and every row left out is no newer than
    any row taken. *)
Lemma limit_order_by_desc (n : nat) (l : list A) :
  let taken := firstn n (order_by_desc key l) in
  List.length taken = Nat.min n (List.length l) /\
  (forall x, In x taken -> In x l) /\
  StronglySorted (fun a b => key b <= key a) taken /\
  (forall x, In x l ->
             In x taken \/ forall y, In y taken -> key x <= key y).
Proof.
  intros taken. subst taken.
  pose proof (order_by_desc_sorted l) as Hs.
  rewrite <- (firstn_skipn n (order_by_desc key l)) in Hs.
  repeat split.
  - rewrite length_firstn. f_equal.
    apply Permutation_length, order_by_desc_perm.
  - intros x Hx. apply order_by_desc_In. exact (In_firstn_aux _ _ _ Hx).
  - clear Hs. pose proof (order_by_desc_sorted l) as Hs.
    revert n. induction Hs as [|y s Hs IH Hall]; intros [|n]; cbn;
      try constructor.
    + apply IH.
    + rewrite Forall_forall in *. intros z Hz. apply Hall.
      exact (In_firstn_aux _ _ _ Hz).
  - intros x Hx. apply order_by_desc_In in Hx.
    rewrite <- (firstn_skipn n (order_by_desc key l)) in Hx.
    apply in_app_or in Hx. destruct Hx as [Hx|Hx]; [now left|right].
    intros y Hy. exact (sorted_app_le _ _ Hs y x Hy Hx).
Qed.

(** A row strictly newer than all others and stored last comes first. *)
Lemma order_by_desc_newest_last (l : list A) (x : A) :
  (forall y, In y l -> key y < key x) ->
  order_by_desc key (l ++ [x]) = x :: order_by_desc key l.
Proof.
  unfold order_by_desc. induction l as [|y l IH]; intros H; [reflexivity|].
  cbn. rewrite IH by (intros z Hz; apply H; now right).
  cbn. destruct (Z.leb_spec (key x) (key y)) as [Hle|_]; [|reflexivity].
  specialize (H y (or_introl eq_refl)). lia.
Qed.
End OrderBy.

(** ** GET /api/glucose *)

Lemma get_glucose_readings_run identity now days_arg w start :
  days_before now (match days_arg with Some n => n | None => 7 end) = Some start ->
  get_glucose_readings identity now days_arg w
  = (GlucoseList
       (map reading_view
            (order_by_desc GlucoseReading.timestamp
                           (readings_since (db w) identity start))) 200, w).
Proof.
  intros H. unfold get_glucose_readings. cbv zeta. rewrite H. reflexivity.
Qed.

Lemma readings_since_In d uid since r :
  In r (readings_since d uid since) <->
  In r (glucose_readings d) /\ GlucoseReading.user_id r = uid /\
  since <= GlucoseReading.timestamp r.
Proof.
  unfold readings_since. rewrite filter_In, andb_true_iff, Z.eqb_eq, Z.leb_le.
  tauto.
Qed.

(** The answer of GET /api/glucose holds exactly the caller's readings of
    the window, each stored reading once, newest first, with the value
    rounded to one decimal; nothing is written. *)
Theorem get_glucose_readings_newest_first
        (identity now : Z) (days_arg : option Z) (w : World) (start : Z) :
  days_before now (match days_arg with Some n => n | None => 7 end) = Some start ->
  exists rows,
    get_glucose_readings identity now days_arg w
    = (GlucoseList (map reading_view rows) 200, w) /\
    Permutation rows (readings_since (db w) identity start) /\
    StronglySorted (fun a b => GlucoseReading.timestamp b <= GlucoseReading.timestamp a)
                   rows /\
    (forall r, In r rows <->
               In r (glucose_readings (db w)) /\
               GlucoseReading.user_id r = identity /\
               start <= GlucoseReading.timestamp r).
Proof.
  intros H. eexists. split; [exact (get_glucose_readings_run _ _ _ _ _ H)|].
  split; [apply order_by_desc_perm|].
  split; [apply order_by_desc_sorted|].
  intros r. rewrite order_by_desc_In. apply readings_since_In.
Qed.

Lemma get_glucose_readings_newest_first_witness :
  exists rows,
    get_glucose_readings 1 (t_one + 2 * minute) None world_manual_then_sync
    = (GlucoseList (map reading_view rows) 200, world_manual_then_sync) /\
    Permutation rows
                [GlucoseReading.mk 1 1 100 t_one JNull JNull false;
                 GlucoseReading.mk 2 1 150 t_midnight JNull JNull true].
Proof.
  destruct (get_glucose_readings_newest_first
              1 (t_one + 2 * minute) None world_manual_then_sync
              (t_one + 2 * minute - timedelta_days 7) eq_refl)
    as (rows & H1 & H2 & _).
  exists rows. split; [exact H1 | exact H2].
Defined.

(** The first entry of the answer is the caller's latest reading: no stored
    reading of the caller has a larger timestamp. *)
Theorem get_glucose_readings_head_is_latest
        (identity now : Z) (days_arg : option Z) (w : World)
        (e : ReadingView.t) (rest : list ReadingView.t) (code : Z) :
  fst (get_glucose_readings identity now days_arg w) = GlucoseList (e :: rest) code ->
  forall r, In r (glucose_readings (db w)) ->
            GlucoseReading.user_id r = identity ->
            GlucoseReading.timestamp r <= ReadingView.timestamp e.
Proof.
  intros H r Hin Hu.
  destruct (days_before now (match days_arg with Some n => n | None => 7 end))
    as [start|] eqn:Hd.
  - rewrite (get_glucose_readings_run _ _ _ _ _ Hd) in H. cbn [fst] in H.
    injection H as H _.
    pose proof (order_by_desc_sorted GlucoseReading.timestamp
                  (readings_since (db w) identity start)) as Hs.
    destruct (order_by_desc GlucoseReading.timestamp
                (readings_since (db w) identity start)) as [|r1 rows] eqn:E;
      [discriminate|].
    injection H as <- _. cbn [reading_view ReadingView.timestamp].
    assert (Hr1 : start <= GlucoseReading.timestamp r1).
    { assert (In r1 (readings_since (db w) identity start))
        by (apply (order_by_desc_In GlucoseReading.timestamp); rewrite E; now left).
      now apply readings_since_In in H. }
    destruct (Z.le_gt_cases start (GlucoseReading.timestamp r)) as [Hw|Hw]; [|lia].
    assert (Hr : In r (r1 :: rows)).
    { rewrite <- E. apply order_by_desc_In. apply readings_since_In. auto. }
    apply StronglySorted_inv in Hs. destruct Hs as [_ Hall].
    destruct Hr as [<-|Hr]; [lia|].
    rewrite Forall_forall in Hall. now apply Hall.
  - unfold get_glucose_readings in H. cbv zeta in H. rewrite Hd in H. discriminate.
Qed.

Lemma get_glucose_readings_head_is_latest_witness :
  GlucoseReading.timestamp (GlucoseReading.mk 2 1 150 t_midnight JNull JNull true)
  <= t_one.
Proof.
  apply (get_glucose_readings_head_is_latest
           1 (t_one + 2 * minute) None world_manual_then_sync
           (ReadingView.mk 1 100 t_one JNull JNull false)
           [ReadingView.mk 2 150 t_midnight JNull JNull true] 200
           eq_refl).
  - right. left. reflexivity.
  - reflexivity.
Defined.

(** A longer look-back never loses a reading: every entry returned for
    [days1] is returned for any [days2 >= days1]. *)
Theorem get_glucose_readings_monotone_in_days
        (identity now days1 days2 : Z) (w : World) (l1 l2 : list ReadingView.t)
        (c1 c2 : Z) :
  days1 <= days2 ->
  fst (get_glucose_readings identity now (Some days1) w) = GlucoseList l1 c1 ->
  fst (get_glucose_readings identity now (Some days2) w) = GlucoseList l2 c2 ->
  forall e, In e l1 -> In e l2.
Proof.
  intros Hle H1 H2 e He.
  unfold get_glucose_readings in H1, H2. cbv zeta in H1, H2.
  destruct (days_before now days1) as [s1|] eqn:E1; [|discriminate].
  destruct (days_before now days2) as [s2|] eqn:E2; [|discriminate].
  cbn in H1, H2. injection H1 as <- _. injection H2 as <- _.
  apply in_map_iff in He. destruct He as (r & <- & Hr).
  apply in_map. apply order_by_desc_In. apply order_by_desc_In in Hr.
  apply readings_since_In in Hr. apply readings_since_In.
  destruct Hr as (Hin & Hu & Ht). repeat split; try assumption.
  assert (s2 <= s1); [|lia].
  unfold days_before in E1, E2.
  destruct (Z.abs days1 <=? TIMEDELTA_MAX_DAYS); [|discriminate].
  destruct (Z.abs days2 <=? TIMEDELTA_MAX_DAYS); [|discriminate].
  cbv zeta in E1, E2.
  destruct (_ && _) in E1; [|discriminate].
  destruct (_ && _) in E2; [|discriminate].
  injection E1 as <-. injection E2 as <-. unfold timedelta_days. lia.
Qed.

Lemma get_glucose_readings_monotone_in_days_witness :
  In (ReadingView.mk 1 100 t_one JNull JNull false)
     [ReadingView.mk 1 100 t_one JNull JNull false;
      ReadingView.mk 2 150 t_midnight JNull JNull true].
Proof.
  apply (get_glucose_readings_monotone_in_days
           1 t_one 0 7 world_manual_then_sync
           [ReadingView.mk 1 100 t_one JNull JNull false]
           [ReadingView.mk 1 100 t_one JNull JNull false;
            ReadingView.mk 2 150 t_midnight JNull JNull true]
           200 200).
  - lia.
  - reflexivity.
  - reflexivity.
  - left. reflexivity.
Defined.

(** The look-back is bounded by what [timedelta] and [datetime] can hold.
    With a clock between 1970 and the end of year 9999 the request is
    answered with 200 exactly when [days] has magnitude at most 999999999
    and the start of the window falls between year 1 and year 9999;
    otherwise the overflow is answered with 500.  Nothing is written in
    either case. *)
Theorem get_glucose_readings_days_bounds (identity now days : Z) (w : World) :
  0 <= now <= DATETIME_MAX ->
  let in_range :=
    Z.abs days <= 999999999 /\
    DATETIME_MIN <= now - days * 86400000000 <= DATETIME_MAX in
  (in_range ->
   exists l, get_glucose_readings identity now (Some days) w = (GlucoseList l 200, w)) /\
  (~ in_range ->
   get_glucose_readings identity now (Some days) w = (GlucoseListError 500, w)) /\
  (0 <= days <= 719162 -> in_range) /\
  (1000000 <= days -> now <= 1704067200 * 1000000 * 2 -> ~ in_range).
Proof.
  intros Hnow in_range. subst in_range.
  unfold get_glucose_readings, days_before, timedelta_days, TIMEDELTA_MAX_DAYS,
    DATETIME_MIN, DATETIME_MAX in *.
  cbv zeta.
  repeat split.
  - intros [Ha Hb].
    destruct (Z.leb_spec (Z.abs days) 999999999); [|lia].
    destruct (Z.leb_spec (-62135596800 * 1000000) (now - days * 86400 * 1000000));
      [|lia].
    destruct (Z.leb_spec (now - days * 86400 * 1000000)
                         (253402300799 * 1000000 + 999999)); [|lia].
    eexists. reflexivity.
  - intros Hn.
    destruct (Z.leb_spec (Z.abs days) 999999999); [|reflexivity].
    destruct (Z.leb_spec (-62135596800 * 1000000) (now - days * 86400 * 1000000));
      [|reflexivity].
    destruct (Z.leb_spec (now - days * 86400 * 1000000)
                         (253402300799 * 1000000 + 999999)); [|reflexivity].
    exfalso. apply Hn. lia.
  - lia.
  - lia.
  - lia.
  - intros Hd Hn [_ H]. lia.
Qed.

Lemma get_glucose_readings_days_bounds_witness :
  get_glucose_readings 1 t_one (Some 1000000) world0 = (GlucoseListError 500, world0).
Proof.
  destruct (get_glucose_readings_days_bounds 1 t_one 1000000 world0)
    as (_ & Herr & _ & Hout).
  - cbv. split; discriminate.
  - apply Herr. apply Hout; [lia | cbv; discriminate].
Defined.

(** A manual entry heads the history.  When a submission was answered with
    status 201 and its clock is past every stored reading of the caller, a
    following GET /api/glucose whose window reaches back to it lists the
    new reading first: under the id the submission returned, with the
    stored value rounded to one decimal, and with the context and the note
    as the text columns hold them. *)
Theorem manual_entry_heads_history
        env rt (identity now1 now2 : Z) (days_arg : option Z)
        (body : dict) (w : World) (x : float) (rid start : Z) :
  py_float rt (dict_get body "reading_value") = inr x ->
  fst (add_glucose_reading env rt identity now1 body w) = ReadingCreated rid 201 ->
  (forall r, In r (glucose_readings (db w)) ->
             GlucoseReading.user_id r = identity ->
             GlucoseReading.timestamp r < now1) ->
  days_before now2 (match days_arg with Some n => n | None => 7 end) = Some start ->
  start <= now1 ->
  let w1 := snd (add_glucose_reading env rt identity now1 body w) in
  exists v context notes rest,
    sqlite_real x = Some v /\
    text_affinity rt (dict_get body "context") = inr context /\
    text_affinity rt (dict_get body "notes") = inr notes /\
    fst (get_glucose_readings identity now2 days_arg w1)
    = GlucoseList
        (ReadingView.mk rid (py_round1 v) now1 context notes false :: rest) 200.
Proof.
  intros Hf Hok Hnew Hd Hwin w1.
  destruct (add_glucose_reading_created _ _ _ _ _ _ _ _ Hok)
    as (x' & row & _ & Hf' & Hi & Hid & _ & Hdb).
  assert (x' = x) by congruence. subst x'.
  fold w1 in Hdb.
  apply insert_reading_inr in Hi.
  unfold submitted in Hi.
  cbn [new_user_id new_timestamp new_value new_context new_notes new_synced] in Hi.
  destruct Hi as (v & context & notes & Hv & Hc & Hn & ->).
  cbn [GlucoseReading.reading_id] in Hid.
  cbn [bind_float py_float] in Hv. injection Hv as Hv.
  exists v, context, notes.
  rewrite (get_glucose_readings_run _ _ _ _ _ Hd). cbn [fst].
  erewrite (readings_since_app (db w) (db w1)); [|rewrite Hdb; reflexivity].
  cbn [filter GlucoseReading.user_id GlucoseReading.timestamp].
  rewrite Z.eqb_refl. cbn [andb]. apply Z.leb_le in Hwin. rewrite Hwin.
  rewrite order_by_desc_newest_last.
  - eexists. repeat split; try assumption.
    cbn [map reading_view GlucoseReading.reading_id GlucoseReading.reading_value
             GlucoseReading.timestamp GlucoseReading.context GlucoseReading.notes
             GlucoseReading.is_synced].
    rewrite Hid. reflexivity.
  - intros y Hy. apply readings_since_In in Hy. cbn.
    destruct Hy as (Hin & Hu & _). now apply Hnew.
Qed.

(** Alice notes the context as the number 5 and the note as [true]; the
    history shows them as the texts "5" and "1". *)
Lemma manual_entry_heads_history_witness :
  exists rest,
    fst (get_glucose_readings 1 (t_one + 3 * minute) None
           (snd (add_glucose_reading (env_with 200 150) rt0 1
                   (t_one + 2 * minute)
                   [("reading_value", JInt 90); ("context", JInt 5);
                    ("notes", JBool true)]
                   world_manual_then_sync)))
    = GlucoseList
        (ReadingView.mk 3 90 (t_one + 2 * minute) (JStr "5") (JStr "1") false
         :: rest) 200.
Proof.
  destruct (manual_entry_heads_history
              (env_with 200 150) rt0 1 (t_one + 2 * minute)
              (t_one + 3 * minute) None
              [("reading_value", JInt 90); ("context", JInt 5);
               ("notes", JBool true)]
              world_manual_then_sync 90 3
              (t_one + 3 * minute - timedelta_days 7) eq_refl eq_refl)
    as (v & context & notes & rest & Hv & Hc & Hn & H).
  - intros r [<-|[<-|[]]] _; reflexivity.
  - reflexivity.
  - cbv. discriminate.
  - exists rest. injection Hv as <-. injection Hc as <-. injection Hn as <-.
    exact H.
Defined.

(** ** POST /api/ai/chat *)

(** The readings whose values go into the assistant's context: at most five,
    all of them readings of the caller, newest first, and every reading of
    the caller that is left out is no newer than any that is taken. *)
Theorem recent_readings_are_the_newest (d : Db) (uid : Z) (n : nat) :
  let recent := recent_readings d uid n in
  (List.length recent <= n)%nat /\
  (forall r, In r recent ->
             In r (glucose_readings d) /\ GlucoseReading.user_id r = uid) /\
  StronglySorted (fun a b => GlucoseReading.timestamp b <= GlucoseReading.timestamp a)
                 recent /\
  (forall r, In r (glucose_readings d) -> GlucoseReading.user_id r = uid ->
             In r recent \/
             forall r', In r' recent ->
                        GlucoseReading.timestamp r <= GlucoseReading.timestamp r').
Proof.
  intros recent. subst recent. unfold recent_readings.
  destruct (limit_order_by_desc GlucoseReading.timestamp n
              (filter (fun r => GlucoseReading.user_id r =? uid) (glucose_readings d)))
    as (Hlen & Hin & Hs & Htop).
  repeat split.
  - rewrite Hlen. apply Nat.le_min_l.
  - apply Hin in H. now apply filter_In in H.
  - apply Hin in H. apply filter_In in H. now apply Z.eqb_eq.
  - exact Hs.
  - intros r Hr Hu. apply Htop. apply filter_In. split; [assumption|].
    now apply Z.eqb_eq.
Qed.

(** For a registered user who sends a message, the chat route answers with
    status 200 whatever the assistant does, and writes nothing: the answer
    is flagged as failed with the "not configured" text when no key is set
    and with the apology when the client raises; it is flagged successful
    only with the content the client returned.  The context carries the
    user's name and at most five values. *)
Theorem ai_chat_degrades_to_apology
        (aienv : AiEnv) (identity : Z) (body : dict) (w : World) (u : User.t) :
  present body "message" = true ->
  User_query_get (db w) identity = Some u ->
  exists result values,
    ai_chat aienv identity body w = (inr (result, 200), w) /\
    values = map GlucoseReading.reading_value (recent_readings (db w) identity 5) /\
    (List.length values <= 5)%nat /\
    (truthy (OPENAI_KEY aienv) = false ->
     result = mkAi false KeyNotConfigured) /\
    (truthy (OPENAI_KEY aienv) = true ->
     match chat_completions_create aienv (dict_get body "message")
             (Some (User.full_name u, values)) with
     | AiRaises => result = mkAi false Apology
     | AiContent c => result = mkAi true (Content c)
     end).
Proof.
  intros Hp Hu. unfold ai_chat. rewrite require_json_single, Hp.
  unfold bind, get_db, ret. rewrite Hu.
  eexists. eexists. split; [reflexivity|]. split; [reflexivity|].
  split; [|split].
  - rewrite length_map. unfold recent_readings. rewrite length_firstn.
    apply Nat.le_min_l.
  - intros Hk. unfold get_ai_response. now rewrite Hk.
  - intros Hk. unfold get_ai_response. rewrite Hk. cbn [negb].
    now destruct (chat_completions_create aienv _ _).
Qed.

Lemma ai_chat_degrades_to_apology_witness :
  ai_chat aienv_down 1 [("message", JStr "How am I doing?")] world_manual_then_sync
  = (inr (mkAi false Apology, 200), world_manual_then_sync).
Proof.
  destruct (ai_chat_degrades_to_apology aienv_down 1
              [("message", JStr "How am I doing?")] world_manual_then_sync alice
              eq_refl eq_refl)
    as (result & values & -> & -> & _ & _ & H).
  specialize (H eq_refl). cbn in H. now rewrite H.
Defined.

(** Without a message the chat route answers 400, and for an identity
    without a user row it answers 500 with the generic error text; in both
    cases nothing is written and the assistant is not consulted. *)
Theorem ai_chat_rejections (aienv : AiEnv) (identity : Z) (body : dict) (w : World) :
  (present body "message" = false ->
   ai_chat aienv identity body w
   = (inl (api_error (MissingFields ["message"]) 400), w)) /\
  (present body "message" = true ->
   User_query_get (db w) identity = None ->
   ai_chat aienv identity body w
   = (inr (mkAi false ErrorProcessingRequest, 500), w)).
Proof.
  unfold ai_chat. rewrite require_json_single. split.
  - intros ->. reflexivity.
  - intros -> Hu. unfold bind, get_db, ret. now rewrite Hu.
Qed.

Lemma ai_chat_rejections_witness :
  ai_chat aienv_no_key 1 [] world0
  = (inl (api_error (MissingFields ["message"]) 400), world0) /\
  ai_chat aienv_no_key 9 [("message", JStr "hi")] world0
  = (inr (mkAi false ErrorProcessingRequest, 500), world0).
Proof.
  destruct (ai_chat_rejections aienv_no_key 1 [] world0) as [H1 _].
  destruct (ai_chat_rejections aienv_no_key 9 [("message", JStr "hi")] world0)
    as [_ H2].
  split; [apply H1 | apply H2]; reflexivity.
Defined.

(** ** /api/food-logs *)

(** GET answers with at most fifty logs, all of them the caller's, newest
    first; every log of the caller that is left out is no newer than any
    that is listed; the table is not touched. *)
Theorem food_logs_get_newest_fifty
        rt (identity now : Z) (body : dict) (table : list FoodLog.t) :
  exists logs,
    food_logs rt GET identity now body table
    = (FoodLogs (map food_log_view logs) 200, table) /\
    (List.length logs <= 50)%nat /\
    (forall l, In l logs -> In l table /\ FoodLog.user_id l = identity) /\
    StronglySorted (fun a b => FoodLog.timestamp b <= FoodLog.timestamp a) logs /\
    (forall l, In l table -> FoodLog.user_id l = identity ->
               In l logs \/
               forall l', In l' logs -> FoodLog.timestamp l <= FoodLog.timestamp l').
Proof.
  destruct (limit_order_by_desc FoodLog.timestamp 50
              (filter (fun l => FoodLog.user_id l =? identity) table))
    as (Hlen & Hin & Hs & Htop).
  eexists. split; [reflexivity|].
  split; [rewrite Hlen; apply Nat.le_min_l|].
  split; [|split; [exact Hs|]].
  - intros l Hl. apply Hin in Hl. apply filter_In in Hl.
    destruct Hl as [Hl Hu]. split; [assumption|now apply Z.eqb_eq].
  - intros l Hl Hu. apply Htop. apply filter_In. split; [assumption|].
    now apply Z.eqb_eq.
Qed.

Lemma next_log_id_fresh (rows : list FoodLog.t) :
  Forall (fun l => FoodLog.log_id l < next_log_id rows) rows.
Proof.
  unfold next_log_id. induction rows as [|r rows IH]; constructor.
  - cbn [map fold_right]. lia.
  - eapply Forall_impl; [|exact IH]. cbn [map fold_right]. intros r'. lia.
Qed.

(** The row of a successful insert: the next id, the caller, the clock, and
    every submitted column as its SQLite column holds it; the name is a
    text. *)
Lemma insert_food_log_inr rt table identity now data log :
  insert_food_log rt table identity now data = inr log ->
  FoodLog.log_id log = next_log_id table /\
  FoodLog.user_id log = identity /\
  FoodLog.timestamp log = now /\
  text_affinity rt (dict_get data "food_name") = inr (FoodLog.food_name log) /\
  FoodLog.food_name log <> JNull /\
  text_affinity rt (dict_get data "quantity") = inr (FoodLog.quantity log) /\
  integer_affinity rt (dict_get data "calories") = inr (FoodLog.calories log) /\
  bind_float rt (dict_get data "carbs") = inr (FoodLog.carbs log) /\
  bind_float rt (dict_get data "protein") = inr (FoodLog.protein log) /\
  text_affinity rt (dict_get data "meal_type") = inr (FoodLog.meal_type log).
Proof.
  unfold insert_food_log, try_bind.
  destruct (bind_float rt (dict_get data "carbs")) as [e|carbs]; [discriminate|].
  destruct (bind_float rt (dict_get data "protein")) as [e|protein]; [discriminate|].
  destruct (text_affinity rt (dict_get data "food_name")) as [e|food_name];
    [discriminate|].
  destruct (text_affinity rt (dict_get data "quantity")) as [e|quantity];
    [discriminate|].
  destruct (integer_affinity rt (dict_get data "calories")) as [e|calories];
    [discriminate|].
  destruct (text_affinity rt (dict_get data "meal_type")) as [e|meal_type];
    [discriminate|].
  destruct food_name; try discriminate; intros H; injection H as <-; cbn;
    repeat split; discriminate.
Qed.

(** A text column holds null or a text. *)
Lemma text_affinity_shape rt v t :
  text_affinity rt v = inr t -> t = JNull \/ exists s, t = JStr s.
Proof.
  destruct v as [|b|z|f|s|l|l]; cbn; try discriminate.
  - intros H. injection H as <-. now left.
  - intros H. injection H as <-. right. eexists. reflexivity.
  - destruct (_ && _); [|discriminate].
    intros H. injection H as <-. right. eexists. reflexivity.
  - destruct (is_nan f); intros H; injection H as <-;
      [now left | right; eexists; reflexivity].
  - intros H. injection H as <-. right. now exists s.
Qed.

Lemma food_logs_post_run
      rt (identity now : Z) (body : dict) (table : list FoodLog.t) :
  match food_logs rt POST identity now body table with
  | (FoodCreated id code, table') =>
      code = 201 /\ ~ In id (map FoodLog.log_id table) /\
      exists log,
        table' = table ++ [log] /\
        insert_food_log rt table identity now body = inr log /\
        FoodLog.log_id log = id
  | (_, table') => table' = table
  end.
Proof.
  unfold food_logs. rewrite require_json_single.
  destruct (present body "food_name"); [|reflexivity].
  destruct (insert_food_log rt table identity now body) as [e|log] eqn:Ei;
    [reflexivity|].
  split; [reflexivity|]. split.
  - destruct (insert_food_log_inr _ _ _ _ _ _ Ei) as (Hid & _).
    intros Hin. apply in_map_iff in Hin. destruct Hin as (l & Hl & Hin).
    pose proof (next_log_id_fresh table) as Hf.
    rewrite Forall_forall in Hf. specialize (Hf l Hin). lia.
  - exists log. now repeat split.
Qed.

(** What POST does to the table.  Without a food name the answer is the 400
    of [require_json].  An answer other than "created" leaves the table as
    it was.  A "created" answer has status 201 and the table has gained one
    row, at its end: it carries the returned id, which no earlier row has,
    the caller as owner, the clock as timestamp, and the submitted name as
    the text column holds it: a text, also when a number or a truth value
    was submitted. *)
Theorem food_logs_post_outcome
        rt (identity now : Z) (body : dict) (table : list FoodLog.t) :
  (present body "food_name" = false ->
   food_logs rt POST identity now body table
   = (FoodRejected (api_error (MissingFields ["food_name"]) 400), table)) /\
  match food_logs rt POST identity now body table with
  | (FoodCreated id code, table') =>
      code = 201 /\ ~ In id (map FoodLog.log_id table) /\
      exists log name,
        table' = table ++ [log] /\
        FoodLog.log_id log = id /\ FoodLog.user_id log = identity /\
        FoodLog.timestamp log = now /\
        FoodLog.food_name log = JStr name /\
        text_affinity rt (dict_get body "food_name") = inr (JStr name)
  | (_, table') => table' = table
  end.
Proof.
  split.
  { intros H. unfold food_logs. now rewrite require_json_single, H. }
  pose proof (food_logs_post_run rt identity now body table) as H.
  destruct (food_logs rt POST identity now body table) as [[logs c|id c|err|c] table'];
    try exact H.
  destruct H as (Hc & Hfresh & log & Ht & Hi & Hid).
  split; [exact Hc|]. split; [exact Hfresh|].
  destruct (insert_food_log_inr _ _ _ _ _ _ Hi)
    as (_ & Hu & Hts & Hname & Hnn & _).
  destruct (text_affinity_shape _ _ _ Hname) as [E|[name E]]; [contradiction|].
  exists log, name. rewrite E in Hname. now repeat split.
Qed.

(** A post without a name is rejected; a post whose name is the number 5
    stores the text "5". *)
Lemma food_logs_post_outcome_witness :
  food_logs rt0 POST 1 t_one [("quantity", JStr "2")] food_table0
  = (FoodRejected (api_error (MissingFields ["food_name"]) 400), food_table0) /\
  exists log,
    snd (food_logs rt0 POST 1 t_one food_body_numeric food_table0)
    = food_table0 ++ [log] /\
    FoodLog.food_name log = JStr "5".
Proof.
  split.
  - destruct (food_logs_post_outcome rt0 1 t_one
                [("quantity", JStr "2")] food_table0) as [H _].
    apply H. reflexivity.
  - destruct (food_logs_post_outcome rt0 1 t_one food_body_numeric food_table0)
      as [_ H].
    cbn in H. destruct H as (_ & _ & log & name & Ht & _ & _ & _ & Hn & Hx).
    exists log. split; [exact Ht|]. rewrite Hn. now injection Hx as <-.
Defined.

(** A log posted with a clock past every log of the caller is the first
    entry of the caller's next GET: under the returned id, with the clock
    of the post, and with the name as the text column holds it. *)
Theorem food_log_post_then_get
        rt (identity now now' : Z) (body body' : dict)
        (table table' : list FoodLog.t) (id code : Z) :
  food_logs rt POST identity now body table
  = (FoodCreated id code, table') ->
  (forall l, In l table -> FoodLog.user_id l = identity ->
             FoodLog.timestamp l < now) ->
  exists entry rest,
    fst (food_logs rt GET identity now' body' table')
    = FoodLogs (entry :: rest) 200 /\
    FoodLogView.id entry = id /\
    FoodLogView.timestamp entry = now /\
    text_affinity rt (dict_get body "food_name")
    = inr (FoodLogView.food_name entry).
Proof.
  intros Hpost Hnew.
  pose proof (food_logs_post_run rt identity now body table) as H.
  rewrite Hpost in H.
  destruct H as (_ & _ & log & -> & Hi & Hid).
  destruct (insert_food_log_inr _ _ _ _ _ _ Hi) as (_ & Hu & Ht & Hn & _).
  cbn [food_logs fst]. rewrite filter_app. cbn [filter].
  rewrite Hu, Z.eqb_refl.
  rewrite order_by_desc_newest_last.
  - cbn [firstn map]. eexists. eexists. split; [reflexivity|].
    cbn. auto.
  - intros y Hy. apply filter_In in Hy. destruct Hy as [Hy Hyu].
    rewrite Ht. apply Hnew; [assumption|now apply Z.eqb_eq].
Qed.

Lemma food_log_post_then_get_witness :
  exists entry rest,
    fst (food_logs rt0 GET 1 (t_one + minute) []
           (snd (food_logs rt0 POST 1 t_one food_body food_table0)))
    = FoodLogs (entry :: rest) 200 /\
    FoodLogView.id entry = 2 /\
    FoodLogView.timestamp entry = t_one /\
    FoodLogView.food_name entry = JStr "apple".
Proof.
  destruct (food_log_post_then_get rt0 1 t_one (t_one + minute)
              food_body [] food_table0
              (snd (food_logs rt0 POST 1 t_one food_body food_table0))
              2 201 eq_refl)
    as (entry & rest & H1 & H2 & H3 & H4).
  - intros l [<-|[]] _. reflexivity.
  - exists entry, rest. repeat split; try assumption.
    cbn in H4. now injection H4.
Defined.

(** ** Submissions the database refuses *)






(** ** No NaN in the timeline *)

(** Both write paths keep NaN out of the timeline: if no stored reading has
    the value NaN before a manual submission or a sync call, none has it
    after, whatever was submitted or fetched and whatever the outcome. *)
Theorem stored_values_are_numbers
        env rt (identity now : Z) (body : dict) (w : World) :
  Forall (fun r => is_nan (GlucoseReading.reading_value r) = false)
         (glucose_readings (db w)) ->
  Forall (fun r => is_nan (GlucoseReading.reading_value r) = false)
         (glucose_readings
            (db (snd (add_glucose_reading env rt identity now body w)))) /\
  Forall (fun r => is_nan (GlucoseReading.reading_value r) = false)
         (glucose_readings
            (db (snd (sync_dexcom_data env rt identity now w)))).
Proof.
  intros Hall. split.
  - destruct (add_glucose_reading_db env rt identity now body w)
      as (_ & [-> | (x & row & _ & Hi & ->)]); [assumption|].
    apply Forall_app. split; [assumption|].
    constructor; [|constructor]. exact (insert_reading_not_nan _ _ _ _ Hi).
  - destruct (sync_dexcom_data env rt identity now w) as [[n|err] w'] eqn:E.
    + destruct (sync_dexcom_data_ok _ _ _ _ _ _ _ E)
        as (data & new & _ & -> & _ & _ & _ & Hcp & _).
      cbn [snd db glucose_readings].
      apply Forall_app. split; [assumption|].
      eapply Forall_impl; [|exact Hcp].
      intros r (e & c & st & _ & _ & _ & Hv).
      destruct (bind_float_Some _ _ _ Hv) as (y & _ & Hy).
      exact (sqlite_real_not_nan _ _ Hy).
    + destruct (sync_dexcom_data_cases env rt identity now w)
        as [[err' E'] | (u & data & s & n & rows2 & _ & _ & _ & _ & _ & _ & E')];
        rewrite E' in E; [|discriminate].
      injection E as _ <-. exact Hall.
Qed.

(** The provider reports NaN for a sample: the batch is rejected, as it is
    for a null value, and the timeline stays free of NaN. *)
Lemma stored_values_are_numbers_witness :
  sync_dexcom_data
    (env_samples [mkEgv (Some "2024-01-01T00:00:00Z") (JFloat nan)])
    rt0 1 t_one world_three
  = (SyncErr (ExnText IntegrityError), world_three) /\
  Forall (fun r => is_nan (GlucoseReading.reading_value r) = false)
         (glucose_readings
            (db (snd (add_glucose_reading (env_with 200 150) rt0 1 t_one
                        (manual_body (JFloat nan)) world_three)))).
Proof.
  split; [reflexivity|].
  apply (stored_values_are_numbers (env_with 200 150) rt0 1 t_one
           (manual_body (JFloat nan)) world_three).
  repeat constructor.
Defined.

(** ** Required fields and the dispatcher *)

Lemma negb_present (data : dict) (f : string) :
  negb (dict_mem data f) || in_empty_values (dict_get data f)
  = negb (present data f).
Proof.
  unfold present. destruct (dict_mem data f), (in_empty_values (dict_get data f));
    reflexivity.
Qed.

(** [require_json] accepts a body exactly when every required field is
    there with a value other than null, the empty string and the empty list
    (so 0 and false are accepted), and then hands the body on unchanged.
    Otherwise it answers 400 and names exactly the fields that fail, in the
    order they were required. *)
Theorem require_json_reports_missing (fields : list string) (data : dict) :
  let missing := filter (fun f => negb (present data f)) fields in
  (missing = [] -> require_json fields data = inl data) /\
  (missing <> [] ->
   require_json fields data = inr (api_error (MissingFields missing) 400)) /\
  (forall f, In f missing <->
             In f fields /\
             (dict_mem data f = false \/ dict_get data f = JNull \/
              dict_get data f = JStr EmptyString \/ dict_get data f = JArr [])).
Proof.
  intros missing.
  assert (E : filter (fun f => negb (dict_mem data f)
                               || in_empty_values (dict_get data f)) fields
              = missing).
  { subst missing. apply filter_ext. intros f. apply negb_present. }
  unfold require_json. rewrite E. repeat split.
  - intros ->. reflexivity.
  - intros H. destruct missing; [contradiction|reflexivity].
  - subst missing. apply filter_In in H. tauto.
  - subst missing. apply filter_In in H. destruct H as [_ H].
    apply negb_true_iff in H. now apply present_false_iff.
  - intros [Hin H]. subst missing. apply filter_In. split; [assumption|].
    apply negb_true_iff. now apply present_false_iff.
Qed.

(** The dispatcher is safe to call: [send_email] and [send_sms] always
    return, leave the database alone and log the one call they were asked
    for.  [send_email] reports success only when a key is configured and the
    provider answered 202, [send_sms] only when Twilio is configured and the
    client call returned; missing keys and raised exceptions give [False]. *)
Theorem dispatcher_reports_failure_as_false
        env (to_email subject to_phone : string) (content : alert_msg) (w : World) :
  let mail := Email to_email subject content in
  let sms := Sms to_phone content in
  db (snd (send_email env to_email subject content w)) = db w /\
  outbox (snd (send_email env to_email subject content w)) = outbox w ++ [mail] /\
  (fst (send_email env to_email subject content w) = true <->
   truthy (SENDGRID_API_KEY env) = true /\ sendgrid_send env mail = Returns 202) /\
  db (snd (send_sms env to_phone content w)) = db w /\
  outbox (snd (send_sms env to_phone content w)) = outbox w ++ [sms] /\
  (fst (send_sms env to_phone content w) = true <->
   TWILIO_CONFIGURED env = true /\ exists c, twilio_create env sms = Returns c).
Proof.
  intros mail sms. subst mail sms.
  unfold send_email, send_sms, bind, log_call, ret.
  repeat split.
  - destruct (SENDGRID_API_KEY env) as [[|c k]|]; try reflexivity.
    now destruct (sendgrid_send env _).
  - destruct (SENDGRID_API_KEY env) as [[|c k]|]; try reflexivity.
    now destruct (sendgrid_send env _).
  - destruct (SENDGRID_API_KEY env) as [[|c k]|]; cbn; try discriminate.
    reflexivity.
  - destruct (SENDGRID_API_KEY env) as [[|c k]|]; cbn in *; try discriminate.
    destruct (sendgrid_send env _) as [|code]; cbn in *; try discriminate.
    apply Z.eqb_eq in H. now subst.
  - intros [Hk Hs]. destruct (SENDGRID_API_KEY env) as [[|c k]|];
      cbn in *; try discriminate.
    now rewrite Hs.
  - destruct (TWILIO_CONFIGURED env); try reflexivity.
    now destruct (twilio_create env _).
  - destruct (TWILIO_CONFIGURED env); try reflexivity.
    now destruct (twilio_create env _).
  - destruct (TWILIO_CONFIGURED env); cbn in *; [reflexivity|discriminate].
  - destruct (TWILIO_CONFIGURED env); cbn in *; try discriminate.
    destruct (twilio_create env _) as [|code]; cbn in *; try discriminate.
    now exists code.
  - intros [Hc [c Hs]]. rewrite Hc, Hs. reflexivity.
Qed.

Lemma require_json_reports_missing_witness :
  require_json ["full_name"; "email"; "password"]
               [("email", JStr "a@example.org"); ("password", JStr EmptyString)]
  = inr (api_error (MissingFields ["full_name"; "password"]) 400).
Proof.
  destruct (require_json_reports_missing
              ["full_name"; "email"; "password"]
              [("email", JStr "a@example.org"); ("password", JStr EmptyString)])
    as (_ & H & _).
  apply H. discriminate.
Defined.
